(** * A model of the stackful coroutine runtime in [coroutine.h]

    The development follows the ucontext backend of the header (the branch
    compiled when [_MSC_VER] is not defined) and the [Channel] template.

    - Routine identifiers ([routine_t], an [unsigned int]) are integers
      modulo [2^32]; the table index [id - 1] is computed with wrap-around.
    - A function body ([std::function<void()>]) is a tree of calls into the
      library, each call carrying the code that runs once it has returned.
    - A saved execution context ([ucontext_t]) is the code that remains to be
      run on that stack.
    - [assert] is compiled in: a failed assertion aborts ([AssertFail]).
      Indexing the routine table out of range, jumping to a context that was
      never saved, and calling through a null pointer are [Undefined]. *)

From Stdlib Require Import ZArith List Bool Lia Sorted.
From stdpp Require Import base option gmap.
Import ListNotations.
Local Open Scope Z_scope.

(** ** Outcomes of a library call *)

Inductive outcome (A : Type) : Type :=
| Ok (a : A)
| AssertFail
| Undefined.
Arguments Ok {A} a.
Arguments AssertFail {A}.
Arguments Undefined {A}.

Definition obind {A B : Type} (m : outcome A) (f : A -> outcome B) : outcome B :=
  match m with
  | Ok a => f a
  | AssertFail => AssertFail
  | Undefined => Undefined
  end.

(** ** The routine table: a vector indexed by [size_t] *)

Fixpoint nth_Z {A : Type} (l : list A) (i : Z) : option A :=
  match l with
  | [] => None
  | x :: l' => if i =? 0 then Some x else nth_Z l' (i - 1)
  end.

Fixpoint set_Z {A : Type} (l : list A) (i : Z) (x : A) : list A :=
  match l with
  | [] => []
  | y :: l' => if i =? 0 then x :: l' else y :: set_Z l' (i - 1) x
  end.

(** ** Identifiers *)

Definition routine_t := Z.

Definition UINT_MAX1 : Z := 2 ^ 32.

(** [(routine_t) n]: conversion of a [size_t] to [unsigned int]. *)
Definition to_routine_t (n : Z) : routine_t := n mod UINT_MAX1.

(** The index [id - 1], computed in [unsigned int]. *)
Definition slot_index (id : routine_t) : Z := (id - 1) mod UINT_MAX1.

Definition is_routine_t (id : Z) : Prop := 0 <= id < UINT_MAX1.

(** The resume indicators. *)
Definition NOT_FOUND : Z := -1.
Definition ALREADY_FINISHED : Z := -2.
Definition RESUMED : Z := 0.

Section Runtime.
Set Implicit Arguments.

(** The element type of the channels. *)
Variable T : Type.

(** ** Code

    [Return] is the end of the function body. Every other constructor is a
    call into the library followed by the rest of the body, which receives
    the value the call returns. [PopLoop] and [AwaitLoop] are the program
    points inside the [while] loops of [Channel::pop] and [await], where a
    routine that yielded there continues. In [Await], [polls] is the number
    of times [wait_for] reports [timeout] before the launched call is ready. *)

Inductive code : Type :=
| Return
| Create (f : code) (k : routine_t -> code)
| Destroy (id : routine_t) (k : code)
| Resume (id : routine_t) (k : Z -> code)
| Yield (k : code)
| Current (k : routine_t -> code)
| Await (A B : Type) (polls : nat) (f : A -> B) (a : A) (k : B -> code)
| AwaitLoop (A B : Type) (polls : nat) (f : A -> B) (a : A) (k : B -> code)
| Consume (c : nat) (id : routine_t) (k : code)
| Push (c : nat) (v : T) (k : code)
| Pop (c : nat) (k : T -> code)
| PopLoop (c : nat) (k : T -> code)
| Clear (c : nat) (k : code)
| Touch (c : nat) (k : code)
| Size (c : nat) (k : Z -> code)
| Empty (c : nat) (k : bool -> code).

(** ** Execution contexts

    A context runs either on the host stack or on the stack of a routine,
    inside [entry], whose locals are [id] and [routine] (the address of the
    Routine object, [self]). [Entry] is a context built by [makecontext] that
    has not started running [entry] yet. *)

Inductive frame : Type :=
| Host
| Body (id : routine_t) (self : nat).

Inductive context : Type :=
| Entry
| Run (fr : frame) (k : code).

(** ** struct Routine, struct Ordinator, class Channel *)

Record Routine : Type := mkRoutine {
  self : nat;               (* address of the object made by make_shared *)
  func : code;
  stack : bool;             (* false: nullptr *)
  finished : bool;
  ctx : option context      (* None: not initialised *)
}.

Record Ordinator : Type := mkOrdinator {
  routines : list (option Routine);   (* None: nullptr *)
  indexes : list routine_t;
  current : routine_t;
  stack_size : Z;
  host_ctx : option context           (* the field ctx of Ordinator *)
}.

Record Channel : Type := mkChannel {
  list_ : list T;
  taker_ : routine_t
}.

(** The thread-local [ordinator], the channel objects of the program, the
    number of calls launched by [std::async] and the number of Routine
    objects allocated so far. A channel that was never touched is as its
    default constructor leaves it. *)

Record state : Type := mkState {
  ord : Ordinator;
  chans : gmap nat Channel;
  asyncs : nat;
  allocated : nat
}.

Definition STACK_LIMIT : Z := 1024 * 1024.

Definition new_ordinator : Ordinator :=
  mkOrdinator [] [] 0 STACK_LIMIT None.

Definition new_channel : Channel := mkChannel [] 0.

Definition init : state := mkState new_ordinator ∅ 0%nat 0%nat.

Definition set_ord (s : state) (o : Ordinator) : state :=
  mkState o (chans s) (asyncs s) (allocated s).

Definition set_routines (o : Ordinator) (rs : list (option Routine)) : Ordinator :=
  mkOrdinator rs (indexes o) (current o) (stack_size o) (host_ctx o).

Definition set_indexes (o : Ordinator) (ix : list routine_t) : Ordinator :=
  mkOrdinator (routines o) ix (current o) (stack_size o) (host_ctx o).

Definition set_current (o : Ordinator) (id : routine_t) : Ordinator :=
  mkOrdinator (routines o) (indexes o) id (stack_size o) (host_ctx o).

Definition set_host_ctx (o : Ordinator) (c : context) : Ordinator :=
  mkOrdinator (routines o) (indexes o) (current o) (stack_size o) (Some c).

Definition set_finished (r : Routine) : Routine :=
  mkRoutine (self r) (func r) (stack r) true (ctx r).

Definition set_ctx (r : Routine) (c : context) : Routine :=
  mkRoutine (self r) (func r) (stack r) (finished r) (Some c).

Definition make_stack (r : Routine) : Routine :=
  mkRoutine (self r) (func r) true (finished r) (Some Entry).

Definition chan (s : state) (c : nat) : Channel :=
  default new_channel (chans s !! c).

Definition set_chan (s : state) (c : nat) (ch : Channel) : state :=
  mkState (ord s) (<[c := ch]> (chans s)) (asyncs s) (allocated s).

(** [ordinator.routines[id - 1]]: [None] when the index is out of range. *)
Definition slot (s : state) (id : routine_t) : option (option Routine) :=
  nth_Z (routines (ord s)) (slot_index id).

Definition set_slot (s : state) (id : routine_t) (p : option Routine) : state :=
  set_ord s (set_routines (ord s) (set_Z (routines (ord s)) (slot_index id) p)).

(** ** create, destroy, current *)

Definition create (f : code) (s : state) : outcome (state * routine_t) :=
  let routine := mkRoutine (allocated s) f false false None in
  let s1 := mkState (ord s) (chans s) (asyncs s) (S (allocated s)) in
  match indexes (ord s) with
  | [] =>
      let rs := routines (ord s) ++ [Some routine] in
      Ok (set_ord s1 (set_routines (ord s) rs), to_routine_t (Z.of_nat (length rs)))
  | id :: rest =>
      let s2 := set_ord s1 (set_indexes (ord s) rest) in
      match slot s2 id with
      | None => Undefined
      | Some (Some _) => AssertFail
      | Some None => Ok (set_slot s2 id (Some routine), id)
      end
  end.

Definition destroy (id : routine_t) (s : state) : outcome state :=
  match slot s id with
  | None => Undefined
  | Some None => AssertFail
  | Some (Some _) =>
      let s1 := set_slot s id None in
      Ok (set_ord s1 (set_indexes (ord s1) (indexes (ord s1) ++ [id])))
  end.

(** ** resume, yield and the entry trampoline

    [resume id ret s]: [ret] gives, for each value [resume] can return, the
    context of the caller after the call. The result is the context that
    runs next. [swapcontext (&ordinator.ctx, &routine->ctx)] stores the
    caller's context, which will see [resume] return 0, and activates the
    routine's. *)

Definition resume (id : routine_t) (ret : Z -> context) (s : state)
  : outcome (state * context) :=
  if negb (current (ord s) =? 0) then AssertFail else
  match slot s id with
  | None => Undefined
  | Some None => Ok (s, ret NOT_FOUND)
  | Some (Some routine) =>
      if finished routine then Ok (s, ret ALREADY_FINISHED)
      else if negb (stack routine) then
        let s1 := set_slot s id (Some (make_stack routine)) in
        let s2 := set_ord s1 (set_current (ord s1) id) in
        Ok (set_ord s2 (set_host_ctx (ord s2) (ret RESUMED)), Entry)
      else
        let s1 := set_ord s (set_current (ord s) id) in
        match ctx routine with
        | None => Undefined
        | Some c => Ok (set_ord s1 (set_host_ctx (ord s1) (ret RESUMED)), c)
        end
  end.

(** The second assertion of [yield] compares the address of a local with the
    routine's stack: it holds when the caller runs on that stack. *)
Definition on_stack (fr : frame) (routine : Routine) : bool :=
  match fr with
  | Host => false
  | Body _ a => Nat.eqb a (self routine) && stack routine
  end.

(** [yield fr k s]: called in frame [fr], with [k] the code after the call. *)
Definition yield (fr : frame) (k : code) (s : state) : outcome (state * context) :=
  let id := current (ord s) in
  match slot s id with
  | None => Undefined
  | Some None => AssertFail
  | Some (Some routine) =>
      if negb (on_stack fr routine) then AssertFail else
      let s1 := set_ord s (set_current (ord s) 0) in
      let s2 := set_slot s1 id (Some (set_ctx routine (Run fr k))) in
      match host_ctx (ord s) with
      | None => Undefined
      | Some c => Ok (s2, c)
      end
  end.

(** [entry] up to the call of the body. *)
Definition entry_begin (s : state) : outcome (state * context) :=
  let id := current (ord s) in
  match slot s id with
  | None => Undefined
  | Some None => Undefined
  | Some (Some routine) => Ok (s, Run (Body id (self routine)) (func routine))
  end.

(** [routine->finished = true], through the pointer held by [entry]. *)
Definition write_finished (a : nat) (rs : list (option Routine)) : list (option Routine) :=
  map (fun p => match p with
                | Some r => if Nat.eqb (self r) a then Some (set_finished r) else p
                | None => None
                end) rs.

(** [entry] after the body has returned; the context then ends and control
    goes to [uc_link], which is [&ordinator.ctx]. *)
Definition entry_end (id : routine_t) (a : nat) (s : state) : outcome (state * context) :=
  let o1 := set_routines (ord s) (write_finished a (routines (ord s))) in
  let o2 := set_current o1 0 in
  let o3 := set_indexes o2 (indexes o2 ++ [id]) in
  match host_ctx (ord s) with
  | None => Undefined
  | Some c => Ok (set_ord s o3, c)
  end.

(** ** await *)

Definition launch (s : state) : state :=
  mkState (ord s) (chans s) (S (asyncs s)) (allocated s).

Definition await_loop (fr : frame) (A B : Type) (polls : nat) (f : A -> B) (a : A)
  (k : B -> code) (s : state) : outcome (state * context) :=
  match polls with
  | O => Ok (s, Run fr (k (f a)))
  | S n =>
      if negb (current (ord s) =? 0) then yield fr (AwaitLoop n f a k) s
      else Ok (s, Run fr (AwaitLoop n f a k))
  end.

(** ** Channel *)

Definition consume (c : nat) (id : routine_t) (s : state) : state :=
  set_chan s c (mkChannel (list_ (chan s c)) id).

Definition push (c : nat) (obj : T) (ret : context) (s : state)
  : outcome (state * context) :=
  let s1 := set_chan s c (mkChannel (list_ (chan s c) ++ [obj]) (taker_ (chan s c))) in
  let taker := taker_ (chan s1 c) in
  if negb (taker =? 0) && negb (taker =? current (ord s1))
  then resume taker (fun _ => ret) s1
  else Ok (s1, ret).

Definition pop_loop (fr : frame) (c : nat) (k : T -> code) (s : state)
  : outcome (state * context) :=
  match list_ (chan s c) with
  | [] => yield fr (PopLoop c k) s
  | obj :: rest => Ok (set_chan s c (mkChannel rest (taker_ (chan s c))), Run fr (k obj))
  end.

Definition pop (fr : frame) (c : nat) (k : T -> code) (s : state)
  : outcome (state * context) :=
  let s1 := if taker_ (chan s c) =? 0
            then set_chan s c (mkChannel (list_ (chan s c)) (current (ord s)))
            else s in
  pop_loop fr c k s1.

Definition clear (c : nat) (s : state) : state :=
  set_chan s c (mkChannel [] (taker_ (chan s c))).

Definition touch (c : nat) (ret : context) (s : state) : outcome (state * context) :=
  let taker := taker_ (chan s c) in
  if negb (taker =? 0) && negb (taker =? current (ord s))
  then resume taker (fun _ => ret) s
  else Ok (s, ret).

Definition size (c : nat) (s : state) : Z := Z.of_nat (length (list_ (chan s c))).

Definition empty (c : nat) (s : state) : bool :=
  match list_ (chan s c) with
  | [] => true
  | _ :: _ => false
  end.

(** ** The machine

    One step runs the next library call of the active context. The host
    function returning leaves the machine where it is. *)

Definition step (s : state) (c : context) : outcome (state * context) :=
  match c with
  | Entry => entry_begin s
  | Run fr body =>
      match body with
      | Return =>
          match fr with
          | Host => Ok (s, c)
          | Body id a => entry_end id a s
          end
      | Create f k => obind (create f s) (fun '(s1, id) => Ok (s1, Run fr (k id)))
      | Destroy id k => obind (destroy id s) (fun s1 => Ok (s1, Run fr k))
      | Resume id k => resume id (fun r => Run fr (k r)) s
      | Yield k => yield fr k s
      | Current k => Ok (s, Run fr (k (current (ord s))))
      | Await polls f a k => Ok (launch s, Run fr (AwaitLoop polls f a k))
      | AwaitLoop polls f a k => await_loop fr polls f a k s
      | Consume c id k => Ok (consume c id s, Run fr k)
      | Push c v k => push c v (Run fr k) s
      | Pop c k => pop fr c k s
      | PopLoop c k => pop_loop fr c k s
      | Clear c k => Ok (clear c s, Run fr k)
      | Touch c k => touch c (Run fr k) s
      | Size c k => Ok (s, Run fr (k (size c s)))
      | Empty c k => Ok (s, Run fr (k (empty c s)))
      end
  end.

Fixpoint run (n : nat) (s : state) (c : context) : outcome (state * context) :=
  match n with
  | O => Ok (s, c)
  | S n' => obind (step s c) (fun '(s1, c1) => run n' s1 c1)
  end.

Unset Implicit Arguments.
End Runtime.

Arguments Return {T}.
Arguments Entry {T}.
Arguments new_ordinator {T}.
Arguments new_channel {T}.
Arguments init {T}.

(** A sequence of [create] calls, one per body, with the identifiers they
    return. *)
Fixpoint create_all {T} (fs : list (code T)) (s : state T)
  : outcome (state T * list routine_t) :=
  match fs with
  | [] => Ok (s, [])
  | f :: fs' =>
      obind (create f s) (fun '(s1, id) =>
      obind (create_all fs' s1) (fun '(s2, ids) => Ok (s2, id :: ids)))
  end.

(** The identifiers [n + 1], ..., [n + k]. *)
Fixpoint ids_from (n : Z) (k : nat) : list Z :=
  match k with
  | O => []
  | S k' => (n + 1) :: ids_from (n + 1) k'
  end.

(** A routine that returns at once is created and run, then a second
    routine is created. *)
Definition create_after_completion : code Z :=
  Create Return (fun id =>
  Resume id (fun _ =>
  Create Return (fun _ => Return))).

(** A producer and a consumer on channel 0: the consumer is started first
    and suspends in [pop]; the producer then pushes from inside its body. *)
Definition push_from_routine : code Z :=
  Create (Push 0%nat 7 Return) (fun producer =>
  Create (Pop 0%nat (fun _ => Return)) (fun consumer =>
  Resume consumer (fun _ =>
  Resume producer (fun _ => Return)))).

(** The consumer is started first and suspends in [pop]; the host pushes. *)
Definition push_from_host : code Z :=
  Create (Pop 0%nat (fun v => Push 1%nat v Return)) (fun consumer =>
  Resume consumer (fun _ =>
  Push 0%nat 7 Return)).

(** The state [push_from_host] reaches after four steps: routine 1 is
    suspended in [pop] on the empty channel 0, bound as its consumer, and
    the host is about to push. *)
Definition consumer_waiting : state Z :=
  mkState
    (mkOrdinator
       [Some (mkRoutine 0%nat (Pop 0%nat (fun v => Push 1%nat v Return)) true false
                (Some (Run (Body 1 0%nat) (PopLoop 0%nat (fun v => Push 1%nat v Return)))))]
       [] 0 STACK_LIMIT
       (Some (Run Host (Push 0%nat 7 Return))))
    (<[0%nat := mkChannel [] 1]> ∅) 0%nat 1%nat.

(** After [push_back]: the state in which [push] tests the binding. *)
Definition pushed {T} (s : state T) (c : nat) (v : T) : state T :=
  set_chan s c (mkChannel (list_ (chan s c) ++ [v]) (taker_ (chan s c))).

(** Control enters a routine: the call comes from the host context and the
    routine that becomes current has not finished. *)
Definition enters {T} (s s' : state T) : Prop :=
  current (ord s) = 0 /\
  exists r, slot s (current (ord s')) = Some (Some r) /\ finished r = false.

(** ** What a run does to a channel

    The channel operation, if any, that the next step completes: a push, a
    pop that finds a value and returns it, or a clear. [trace n s c] lists
    them for the first [n] steps from [s] and [c]. *)

Inductive event (T : Type) : Type :=
| Pushed (c : nat) (v : T)
| Popped (c : nat) (v : T)
| Cleared (c : nat).
Arguments Pushed {T} c v.
Arguments Popped {T} c v.
Arguments Cleared {T} c.

Definition front_event {T} (s : state T) (c : nat) : option (event T) :=
  match list_ (chan s c) with
  | v :: _ => Some (Popped c v)
  | [] => None
  end.

Definition event_of {T} (s : state T) (c : context T) : option (event T) :=
  match c with
  | Run _ (Push c v _) => Some (Pushed c v)
  | Run _ (Pop c _) => front_event s c
  | Run _ (PopLoop c _) => front_event s c
  | Run _ (Clear c _) => Some (Cleared c)
  | _ => None
  end.

(** What an event does to the queue of channel [ch]. *)
Definition apply_event {T} (ch : nat) (e : option (event T)) (q : list T) : list T :=
  match e with
  | Some (Pushed c v) => if Nat.eqb c ch then q ++ [v] else q
  | Some (Popped c _) => if Nat.eqb c ch then tl q else q
  | Some (Cleared c) => if Nat.eqb c ch then [] else q
  | None => q
  end.

Fixpoint trace {T} (n : nat) (s : state T) (c : context T) : list (event T) :=
  match n with
  | O => []
  | S n' =>
      match step s c with
      | Ok (s1, c1) =>
          match event_of s c with
          | Some e => e :: trace n' s1 c1
          | None => trace n' s1 c1
          end
      | _ => []
      end
  end.

Fixpoint pushes {T} (ch : nat) (tr : list (event T)) : list T :=
  match tr with
  | [] => []
  | Pushed c v :: tr' => if Nat.eqb c ch then v :: pushes ch tr' else pushes ch tr'
  | _ :: tr' => pushes ch tr'
  end.

Fixpoint pops {T} (ch : nat) (tr : list (event T)) : list T :=
  match tr with
  | [] => []
  | Popped c v :: tr' => if Nat.eqb c ch then v :: pops ch tr' else pops ch tr'
  | _ :: tr' => pops ch tr'
  end.

Fixpoint cleared {T} (ch : nat) (tr : list (event T)) : bool :=
  match tr with
  | [] => false
  | Cleared c :: tr' => Nat.eqb c ch || cleared ch tr'
  | _ :: tr' => cleared ch tr'
  end.

(** The host starts a consumer that pops three values from channel 0 and
    pushes their sum on channel 1, then pushes 1, 2 and 3: the consumer is
    suspended and resumed between the pushes. *)
Definition three_pushes : code Z :=
  Create (Pop 0%nat (fun a => Pop 0%nat (fun b => Pop 0%nat (fun c =>
          Push 1%nat (a + b + c) Return)))) (fun consumer =>
  Resume consumer (fun _ =>
  Push 0%nat 1 (Push 0%nat 2 (Push 0%nat 3 Return)))).

(** ** What a step does to a slot of the table

    [slot_step c p p']: the step taken in context [c] finds [p] in a slot
    and leaves [p'] there. A slot is filled by [create], emptied by
    [destroy], given a stack by the first [resume], given a saved context
    by [yield], and marked finished by [entry] when the body returns. *)

Inductive slot_step {T} (c : context T)
  : option (option (Routine T)) -> option (option (Routine T)) -> Prop :=
| slot_same p : slot_step c p p
| slot_created p r :
    p = None \/ p = Some None ->
    finished r = false -> stack r = false ->
    slot_step c p (Some (Some r))
| slot_destroyed r : slot_step c (Some (Some r)) (Some None)
| slot_started r :
    finished r = false ->
    slot_step c (Some (Some r)) (Some (Some (make_stack r)))
| slot_suspended r c0 :
    slot_step c (Some (Some r)) (Some (Some (set_ctx r c0)))
| slot_finished r id :
    c = Run (Body id (self r)) Return ->
    slot_step c (Some (Some r)) (Some (Some (set_finished r))).

(** The host resumes a routine three times. *)
Definition three_resumes {T} (id : routine_t) (k : Z -> Z -> Z -> code T) : code T :=
  Resume id (fun r1 => Resume id (fun r2 => Resume id (fun r3 => k r1 r2 r3))).

(** A fresh routine in slot 1 whose body yields once and returns. *)
Definition yields_once_created : state Z :=
  mkState
    (mkOrdinator [Some (mkRoutine 0%nat (Yield Return) false false None)]
       [] 0 STACK_LIMIT None)
    ∅ 0%nat 1%nat.

(** A host that resumes routine [id] [n] times, then runs [k]. *)
Fixpoint resume_times {T} (n : nat) (id : routine_t) (k : code T) : code T :=
  match n with
  | O => k
  | S n' => Resume id (fun _ => resume_times n' id k)
  end.

(** A function that fails with its argument as error code, a body that
    awaits it, and a host that creates the routine and resumes it three
    times. [awaiting] is the state when the body starts. *)
Definition failing (code : Z) : Z + Z := inr code.

Definition on_outcome (r : Z + Z) : code Z :=
  match r with
  | inl _ => Return
  | inr e => Destroy e Return
  end.

Definition await_body : code Z := Await 2 failing 5 on_outcome.

Definition await_host : code Z :=
  Create await_body (fun id => resume_times 3 id Return).

Definition awaiting : state Z :=
  mkState
    (mkOrdinator
       [Some (mkRoutine 0%nat await_body true false (Some Entry))]
       [] 1 STACK_LIMIT
       (Some (Run Host (resume_times 2 1 Return))))
    ∅ 0%nat 1%nat.

(** Two routines are created; the first runs to its end, the second is
    destroyed. [finished_and_empty] is the state this leaves. *)
Definition finish_and_destroy : code Z :=
  Create Return (fun a =>
  Create Return (fun b =>
  Resume a (fun _ =>
  Destroy b Return))).

Definition finished_and_empty : state Z :=
  mkState
    (mkOrdinator
       [Some (mkRoutine 0%nat Return true true (Some Entry)); None]
       [1; 2] 0 STACK_LIMIT
       (Some (Run Host (Destroy 2 Return))))
    ∅ 0%nat 2%nat.

(** The state of [create_after_completion] when the body of routine 1
    returns. *)
Definition body_returning : state Z :=
  mkState
    (mkOrdinator
       [Some (mkRoutine 0%nat Return true false (Some Entry))]
       [] 1 STACK_LIMIT
       (Some (Run Host (Create Return (fun _ => Return)))))
    ∅ 0%nat 1%nat.

(** Two fresh routines in slots 1 and 2, nothing on the free-list. *)
Definition two_created : state Z :=
  mkState
    (mkOrdinator
       [Some (mkRoutine 0%nat Return false false None);
        Some (mkRoutine 1%nat (Yield Return) false false None)]
       [] 0 STACK_LIMIT None)
    ∅ 0%nat 2%nat.

(** [routines.size ()]. *)
Definition table_size {T} (s : state T) : nat := length (routines (ord s)).

(** * The fiber backend

    The branch of the header compiled under [_MSC_VER]. A routine owns a
    fiber instead of a stack and a context; the host thread is a fiber too
    ([ConvertThreadToFiber]). [SwitchToFiber] stores the state of the
    running fiber in that fiber and runs the target. The state of a fiber is
    [Start] after [CreateFiber], [At fr k] when it switched away in frame
    [fr] with [k] left to run, and [Final] when it switched away at the end
    of [entry]. The running fiber is the host in frame [Host] and the fiber
    of the Routine object [a] in frame [Body id a]. Switching to the running
    fiber, and returning from the fiber function, are [Undefined]. The
    destructor of Routine ([DeleteFiber]) is not modelled. *)

Module Fiber.
Section Backend.
Set Implicit Arguments.

Variable T : Type.

Inductive fiber_state : Type :=
| Start
| At (fr : frame) (k : code T)
| Final.

Record Routine : Type := mkRoutine {
  self : nat;
  func : code T;
  finished : bool;
  fiber : option fiber_state          (* None: nullptr *)
}.

Record Ordinator : Type := mkOrdinator {
  routines : list (option Routine);
  indexes : list routine_t;
  current : routine_t;
  stack_size : Z;
  host_fiber : option fiber_state     (* None: the host never switched away *)
}.

Record state : Type := mkState {
  ord : Ordinator;
  chans : gmap nat (Channel T);
  asyncs : nat;
  allocated : nat
}.

Definition init : state :=
  mkState (mkOrdinator [] [] 0 STACK_LIMIT None) ∅ 0%nat 0%nat.

Definition set_ord (s : state) (o : Ordinator) : state :=
  mkState o (chans s) (asyncs s) (allocated s).

Definition set_routines (o : Ordinator) (rs : list (option Routine)) : Ordinator :=
  mkOrdinator rs (indexes o) (current o) (stack_size o) (host_fiber o).

Definition set_indexes (o : Ordinator) (ix : list routine_t) : Ordinator :=
  mkOrdinator (routines o) ix (current o) (stack_size o) (host_fiber o).

Definition set_current (o : Ordinator) (id : routine_t) : Ordinator :=
  mkOrdinator (routines o) (indexes o) id (stack_size o) (host_fiber o).

Definition set_host_fiber (o : Ordinator) (st : fiber_state) : Ordinator :=
  mkOrdinator (routines o) (indexes o) (current o) (stack_size o) (Some st).

Definition set_finished (r : Routine) : Routine :=
  mkRoutine (self r) (func r) true (fiber r).

Definition set_fiber (r : Routine) (st : fiber_state) : Routine :=
  mkRoutine (self r) (func r) (finished r) (Some st).

Definition chan (s : state) (c : nat) : Channel T :=
  default new_channel (chans s !! c).

Definition set_chan (s : state) (c : nat) (ch : Channel T) : state :=
  mkState (ord s) (<[c := ch]> (chans s)) (asyncs s) (allocated s).

Definition slot (s : state) (id : routine_t) : option (option Routine) :=
  nth_Z (routines (ord s)) (slot_index id).

Definition set_slot (s : state) (id : routine_t) (p : option Routine) : state :=
  set_ord s (set_routines (ord s) (set_Z (routines (ord s)) (slot_index id) p)).

(** A write through the pointer to the Routine object at address [a]. *)
Definition update_object (a : nat) (f : Routine -> Routine)
    (rs : list (option Routine)) : list (option Routine) :=
  map (fun p => match p with
                | Some r => if Nat.eqb (self r) a then Some (f r) else p
                | None => None
                end) rs.

(** [SwitchToFiber] stores the state [st] of the running fiber. *)
Definition save (fr : frame) (st : fiber_state) (o : Ordinator) : Ordinator :=
  match fr with
  | Host => set_host_fiber o st
  | Body _ a =>
      set_routines o
        (update_object a (fun r => match fiber r with
                                   | Some _ => set_fiber r st
                                   | None => r
                                   end) (routines o))
  end.

Definition runs_on (fr : frame) (routine : Routine) : bool :=
  match fr with
  | Host => false
  | Body _ a => Nat.eqb a (self routine)
  end.

Definition create (f : code T) (s : state) : outcome (state * routine_t) :=
  let routine := mkRoutine (allocated s) f false None in
  let s1 := mkState (ord s) (chans s) (asyncs s) (S (allocated s)) in
  match indexes (ord s) with
  | [] =>
      let rs := routines (ord s) ++ [Some routine] in
      Ok (set_ord s1 (set_routines (ord s) rs), to_routine_t (Z.of_nat (length rs)))
  | id :: rest =>
      let s2 := set_ord s1 (set_indexes (ord s) rest) in
      match slot s2 id with
      | None => Undefined
      | Some (Some _) => AssertFail
      | Some None => Ok (set_slot s2 id (Some routine), id)
      end
  end.

Definition destroy (id : routine_t) (s : state) : outcome state :=
  match slot s id with
  | None => Undefined
  | Some None => AssertFail
  | Some (Some _) =>
      let s1 := set_slot s id None in
      Ok (set_ord s1 (set_indexes (ord s1) (indexes (ord s1) ++ [id])))
  end.

(** [entry] up to the call of the body. *)
Definition entry_begin (s : state) : outcome (state * fiber_state) :=
  let id := current (ord s) in
  match slot s id with
  | None => Undefined
  | Some None => AssertFail
  | Some (Some routine) => Ok (s, At (Body id (self routine)) (func routine))
  end.

(** [entry] after the body has returned: it ends with
    [SwitchToFiber (ordinator.fiber)]. *)
Definition entry_end (id : routine_t) (a : nat) (s : state)
  : outcome (state * fiber_state) :=
  let o1 := set_routines (ord s) (update_object a set_finished (routines (ord s))) in
  let o2 := set_current o1 0 in
  match host_fiber (ord s) with
  | None => Undefined
  | Some st => Ok (set_ord s (save (Body id a) Final o2), st)
  end.

(** [resume id], called in frame [fr] with [ret] the code after the call. *)
Definition resume (id : routine_t) (fr : frame) (ret : Z -> code T) (s : state)
  : outcome (state * fiber_state) :=
  if negb (current (ord s) =? 0) then AssertFail else
  match slot s id with
  | None => Undefined
  | Some None => Ok (s, At fr (ret NOT_FOUND))
  | Some (Some routine) =>
      if finished routine then Ok (s, At fr (ret ALREADY_FINISHED))
      else
        let s1 := match fiber routine with
                  | None => set_slot s id (Some (set_fiber routine Start))
                  | Some _ => s
                  end in
        let target := match fiber routine with
                      | None => Start
                      | Some st => st
                      end in
        let o2 := set_current (ord s1) id in
        if runs_on fr routine then Undefined
        else Ok (set_ord s1 (save fr (At fr (ret RESUMED)) o2), target)
  end.

(** [yield], called in frame [fr] with [k] the code after the call. *)
Definition yield (fr : frame) (k : code T) (s : state) : outcome (state * fiber_state) :=
  let id := current (ord s) in
  match slot s id with
  | None => Undefined
  | Some None => AssertFail
  | Some (Some _) =>
      let o1 := set_current (ord s) 0 in
      match fr with
      | Host => Undefined
      | Body _ _ =>
          match host_fiber (ord s) with
          | None => Undefined
          | Some st => Ok (set_ord s (save fr (At fr k) o1), st)
          end
      end
  end.

Definition launch (s : state) : state :=
  mkState (ord s) (chans s) (S (asyncs s)) (allocated s).

Definition await_loop (fr : frame) (A B : Type) (polls : nat) (f : A -> B) (a : A)
  (k : B -> code T) (s : state) : outcome (state * fiber_state) :=
  match polls with
  | O => Ok (s, At fr (k (f a)))
  | S n =>
      if negb (current (ord s) =? 0) then yield fr (AwaitLoop n f a k) s
      else Ok (s, At fr (AwaitLoop n f a k))
  end.

Definition consume (c : nat) (id : routine_t) (s : state) : state :=
  set_chan s c (mkChannel (list_ (chan s c)) id).

Definition push (c : nat) (obj : T) (fr : frame) (k : code T) (s : state)
  : outcome (state * fiber_state) :=
  let s1 := set_chan s c (mkChannel (list_ (chan s c) ++ [obj]) (taker_ (chan s c))) in
  let taker := taker_ (chan s1 c) in
  if negb (taker =? 0) && negb (taker =? current (ord s1))
  then resume taker fr (fun _ => k) s1
  else Ok (s1, At fr k).

Definition pop_loop (fr : frame) (c : nat) (k : T -> code T) (s : state)
  : outcome (state * fiber_state) :=
  match list_ (chan s c) with
  | [] => yield fr (PopLoop c k) s
  | obj :: rest => Ok (set_chan s c (mkChannel rest (taker_ (chan s c))), At fr (k obj))
  end.

Definition pop (fr : frame) (c : nat) (k : T -> code T) (s : state)
  : outcome (state * fiber_state) :=
  let s1 := if taker_ (chan s c) =? 0
            then set_chan s c (mkChannel (list_ (chan s c)) (current (ord s)))
            else s in
  pop_loop fr c k s1.

Definition clear (c : nat) (s : state) : state :=
  set_chan s c (mkChannel [] (taker_ (chan s c))).

Definition touch (c : nat) (fr : frame) (k : code T) (s : state)
  : outcome (state * fiber_state) :=
  let taker := taker_ (chan s c) in
  if negb (taker =? 0) && negb (taker =? current (ord s))
  then resume taker fr (fun _ => k) s
  else Ok (s, At fr k).

Definition size (c : nat) (s : state) : Z := Z.of_nat (length (list_ (chan s c))).

Definition empty (c : nat) (s : state) : bool :=
  match list_ (chan s c) with
  | [] => true
  | _ :: _ => false
  end.

Definition step (s : state) (c : fiber_state) : outcome (state * fiber_state) :=
  match c with
  | Start => entry_begin s
  | Final => Undefined
  | At fr body =>
      match body with
      | Return =>
          match fr with
          | Host => Ok (s, c)
          | Body id a => entry_end id a s
          end
      | Create f k => obind (create f s) (fun '(s1, id) => Ok (s1, At fr (k id)))
      | Destroy id k => obind (destroy id s) (fun s1 => Ok (s1, At fr k))
      | Resume id k => resume id fr k s
      | Yield k => yield fr k s
      | Current k => Ok (s, At fr (k (current (ord s))))
      | Await polls f a k => Ok (launch s, At fr (AwaitLoop polls f a k))
      | AwaitLoop polls f a k => await_loop fr polls f a k s
      | Consume c id k => Ok (consume c id s, At fr k)
      | Push c v k => push c v fr k s
      | Pop c k => pop fr c k s
      | PopLoop c k => pop_loop fr c k s
      | Clear c k => Ok (clear c s, At fr k)
      | Touch c k => touch c fr k s
      | Size c k => Ok (s, At fr (k (size c s)))
      | Empty c k => Ok (s, At fr (k (empty c s)))
      end
  end.

Fixpoint run (n : nat) (s : state) (c : fiber_state) : outcome (state * fiber_state) :=
  match n with
  | O => Ok (s, c)
  | S n' => obind (step s c) (fun '(s1, c1) => run n' s1 c1)
  end.

(** The free-list holds identifiers of distinct slots, all of them empty. *)
Definition free_list_ok (s : state) : Prop :=
  List.NoDup (map slot_index (indexes (ord s))) /\
  List.Forall (fun id => slot s id = Some None) (indexes (ord s)).

Unset Implicit Arguments.
End Backend.

Arguments Start {T}.
Arguments Final {T}.
Arguments init {T}.

End Fiber.

(** [s'] has the free-list of [s] and every empty slot of [s] is empty in
    [s']. *)
Definition keeps_free {T} (s s' : Fiber.state T) : Prop :=
  Fiber.indexes (Fiber.ord s') = Fiber.indexes (Fiber.ord s) /\
  forall id, Fiber.slot s id = Some None -> Fiber.slot s' id = Some None.

(** On the fiber backend: a routine that returns at once is created and run,
    its identifier is destroyed, and two routines are created. *)
Definition fiber_recycle : code Z :=
  Create Return (fun a =>
  Resume a (fun _ =>
  Create (Yield Return) (fun b =>
  Destroy a (
  Create Return (fun c =>
  Create Return (fun d => Return)))))).

(** On the fiber backend: routine 1 has run to the end of its body. *)
Definition fiber_body_returning : Fiber.state Z :=
  Fiber.mkState
    (Fiber.mkOrdinator
       [Some (Fiber.mkRoutine 0%nat Return false (Some Fiber.Start))]
       [] 1 STACK_LIMIT
       (Some (Fiber.At Host (Create Return (fun _ => Return)))))
    ∅ 0%nat 1%nat.

(** On the fiber backend: a fresh routine that yields once. *)
Definition fiber_yields_once : Fiber.state Z :=
  Fiber.mkState
    (Fiber.mkOrdinator
       [Some (Fiber.mkRoutine 0%nat (Yield Return) false None)]
       [] 0 STACK_LIMIT None)
    ∅ 0%nat 1%nat.

(** ** Who is running

    [consistent s c]: the active context [c] runs in the host frame with
    [current] 0 and in a routine with [current] different from 0; the saved
    host context is a context of the host; the contexts saved in routines
    are not. *)

Definition is_host_ctx {T} (c : context T) : Prop :=
  match c with
  | Run Host _ => True
  | _ => False
  end.

Definition frame_ok {T} (s : state T) (c : context T) : Prop :=
  match c with
  | Run Host _ => current (ord s) = 0
  | _ => current (ord s) <> 0
  end.

Definition saved_ok {T} (o : Ordinator T) : Prop :=
  (forall h, host_ctx o = Some h -> is_host_ctx h) /\
  (forall r x, In (Some r) (routines o) -> ctx r = Some x -> ~ is_host_ctx x).

Definition consistent {T} (s : state T) (c : context T) : Prop :=
  frame_ok s c /\ saved_ok (ord s).

(** ** Lemmas on the table *)

Section Table.
Context {A : Type}.
Implicit Types (l : list A) (i j : Z) (x : A).

Lemma nth_Z_Some_range l : forall i x,
  nth_Z l i = Some x -> 0 <= i < Z.of_nat (length l).
Proof.
  induction l as [|y l IH]; intros i x H; simpl in H; [discriminate|].
  destruct (Z.eqb_spec i 0) as [->|Hi].
  - simpl length. lia.
  - apply IH in H. simpl length. lia.
Qed.

Lemma nth_Z_in_range l : forall i,
  0 <= i < Z.of_nat (length l) -> exists x, nth_Z l i = Some x.
Proof.
  induction l as [|y l IH]; intros i Hi; simpl in *; [lia|].
  destruct (Z.eqb_spec i 0) as [->|Hne]; [eauto|].
  apply IH. lia.
Qed.

Lemma nth_Z_None l i :
  nth_Z l i = None <-> i < 0 \/ Z.of_nat (length l) <= i.
Proof.
  split.
  - intros H. destruct (Z_lt_ge_dec i 0) as [|H0]; [now left|].
    destruct (Z_lt_ge_dec i (Z.of_nat (length l))) as [H1|]; [|right; lia].
    destruct (nth_Z_in_range l i) as [x Hx]; [lia|congruence].
  - intros H. destruct (nth_Z l i) as [x|] eqn:E; [|reflexivity].
    apply nth_Z_Some_range in E. lia.
Qed.

Lemma nth_Z_In l : forall i x, nth_Z l i = Some x -> In x l.
Proof.
  induction l as [|y l IH]; intros i x H; simpl in H; [discriminate|].
  destruct (i =? 0); [injection H as ->; now left|right; eauto].
Qed.

Lemma length_set_Z l : forall i x, length (set_Z l i x) = length l.
Proof.
  induction l as [|y l IH]; intros i x; simpl; [reflexivity|].
  destruct (i =? 0); simpl; [reflexivity|now rewrite IH].
Qed.

Lemma nth_Z_set_Z_eq l : forall i x,
  0 <= i < Z.of_nat (length l) -> nth_Z (set_Z l i x) i = Some x.
Proof.
  induction l as [|y l IH]; intros i x Hi; simpl in *; [lia|].
  destruct (Z.eqb_spec i 0) as [->|Hne]; simpl.
  - reflexivity.
  - destruct (Z.eqb_spec i 0); [lia|]. apply IH. lia.
Qed.

Lemma nth_Z_set_Z_ne l : forall i j x,
  i <> j -> nth_Z (set_Z l i x) j = nth_Z l j.
Proof.
  induction l as [|y l IH]; intros i j x Hij; simpl; [reflexivity|].
  destruct (Z.eqb_spec i 0) as [->|Hi]; simpl.
  - destruct (Z.eqb_spec j 0); [lia|reflexivity].
  - destruct (Z.eqb_spec j 0); [reflexivity|]. apply IH. lia.
Qed.

Lemma nth_Z_set_Z l i j x :
  nth_Z (set_Z l i x) j =
  if Z.eqb i j then option_map (fun _ => x) (nth_Z l i) else nth_Z l j.
Proof.
  destruct (Z.eqb_spec i j) as [->|Hne].
  - destruct (nth_Z l j) as [y|] eqn:E; simpl.
    + apply nth_Z_set_Z_eq. eapply nth_Z_Some_range; eauto.
    + apply nth_Z_None. rewrite length_set_Z. now apply nth_Z_None.
  - now apply nth_Z_set_Z_ne.
Qed.

Lemma nth_Z_app_l l l' : forall i,
  i < Z.of_nat (length l) -> nth_Z (l ++ l') i = nth_Z l i.
Proof.
  induction l as [|y l IH]; intros i Hi; simpl in *.
  - assert (nth_Z l' i = None) as ->; [|reflexivity].
    apply nth_Z_None. lia.
  - destruct (Z.eqb_spec i 0); [reflexivity|]. apply IH. lia.
Qed.

Lemma nth_Z_app_last l x : nth_Z (l ++ [x]) (Z.of_nat (length l)) = Some x.
Proof.
  induction l as [|y l IH]; [reflexivity|].
  cbn [app length nth_Z]. destruct (Z.eqb_spec (Z.of_nat (S (length l))) 0); [lia|].
  replace (Z.of_nat (S (length l)) - 1) with (Z.of_nat (length l)) by lia.
  exact IH.
Qed.

End Table.

Lemma nth_Z_map {A B : Type} (f : A -> B) (l : list A) : forall i,
  nth_Z (map f l) i = option_map f (nth_Z l i).
Proof.
  induction l as [|y l IH]; intros i; simpl; [reflexivity|].
  destruct (i =? 0); [reflexivity|apply IH].
Qed.

(** ** Lemmas on identifiers *)

Lemma slot_index_pos id :
  1 <= id < UINT_MAX1 -> slot_index id = id - 1.
Proof. intros H. unfold slot_index, UINT_MAX1 in *. apply Z.mod_small. lia. Qed.

Lemma slot_index_zero : slot_index 0 = UINT_MAX1 - 1.
Proof. reflexivity. Qed.

Lemma slot_index_range id : 0 <= slot_index id < UINT_MAX1.
Proof. unfold slot_index, UINT_MAX1. apply Z.mod_pos_bound. lia. Qed.

Lemma slot_in_range {T} (s : state T) id :
  is_routine_t id ->
  Z.of_nat (length (routines (ord s))) < UINT_MAX1 ->
  slot s id = None <-> ~ (1 <= id <= Z.of_nat (length (routines (ord s)))).
Proof.
  intros Hid Hlen. unfold slot. rewrite nth_Z_None.
  pose proof (slot_index_range id) as Hr. unfold is_routine_t in Hid.
  destruct (Z.eq_dec id 0) as [->|Hne].
  - rewrite slot_index_zero. lia.
  - rewrite slot_index_pos by lia. lia.
Qed.

(** ** Slots *)

Section Slots.
Context {T : Type}.
Implicit Types (s : state T) (id : routine_t) (r : Routine T).

Lemma slot_set_slot_eq s id p q :
  slot s id = Some p -> slot (set_slot s id q) id = Some q.
Proof.
  unfold slot, set_slot. simpl. intros H.
  apply nth_Z_set_Z_eq. eapply nth_Z_Some_range; eauto.
Qed.

Lemma slot_set_ord_routines s o :
  routines o = routines (ord s) -> slot (set_ord s o) = slot s.
Proof. intros H. unfold slot. simpl. now rewrite H. Qed.

Lemma slot_write_finished s id a :
  nth_Z (write_finished a (routines (ord s))) (slot_index id) =
  option_map (fun p => match p with
                       | Some r => if Nat.eqb (self r) a then Some (set_finished r) else p
                       | None => None
                       end) (slot s id).
Proof. unfold write_finished, slot. apply nth_Z_map. Qed.

End Slots.

(** ** resume on an empty slot or on a finished routine *)

(** C1. Called from the host context ([current () == 0], the assertion that
    opens [resume]), [resume id] on an identifier whose slot is empty gives
    its caller -1 and on one whose routine has finished gives -2; in both
    cases the state is the one before the call and the context that runs
    next is the caller's. The two indicators differ from each other and from
    the 0 of a successful call. *)
Theorem resume_failure_indicators {T} (s : state T) (id : routine_t)
    (ret : Z -> context T) :
  current (ord s) = 0 ->
  (slot s id = Some None -> resume id ret s = Ok (s, ret (-1))) /\
  (forall r, slot s id = Some (Some r) -> finished r = true ->
             resume id ret s = Ok (s, ret (-2))) /\
  (forall fr k, slot s id = Some None ->
             step s (Run fr (Resume id k)) = Ok (s, Run fr (k (-1)))) /\
  (forall fr k r, slot s id = Some (Some r) -> finished r = true ->
             step s (Run fr (Resume id k)) = Ok (s, Run fr (k (-2)))) /\
  NOT_FOUND = -1 /\ ALREADY_FINISHED = -2 /\ RESUMED = 0.
Proof.
  intros Hcur.
  assert (H1 : forall ret', slot s id = Some None -> resume id ret' s = Ok (s, ret' (-1))).
  { intros ret' Hs. unfold resume. rewrite Hcur, Hs. reflexivity. }
  assert (H2 : forall ret' r, slot s id = Some (Some r) -> finished r = true ->
                         resume id ret' s = Ok (s, ret' (-2))).
  { intros ret' r Hs Hf. unfold resume. rewrite Hcur, Hs, Hf. reflexivity. }
  repeat split; auto.
  - intros r Hs Hf. eapply H2; eauto.
  - intros fr k Hs. simpl. now rewrite H1.
  - intros fr k r Hs Hf. simpl. now rewrite (H2 _ r).
Qed.

(** Outside the host context the assertion of [resume] fails first. *)
Lemma resume_asserts_host {T} (s : state T) id ret :
  current (ord s) <> 0 -> resume id ret s = AssertFail.
Proof.
  intros H. unfold resume. destruct (Z.eqb_spec (current (ord s)) 0); [contradiction|reflexivity].
Qed.

(** ** The unchecked table index *)

(** C9. For an identifier [id] of type [routine_t] and a table that
    [routine_t] can index, [routines[id - 1]] is inside the table exactly
    when [1 <= id <= routines.size()]. Outside, [resume] (from the host
    context) and [destroy] run into the out-of-range access, and so does
    [yield] when [current] is such an identifier. [resume] gives -1 to every
    caller only if [id] is in range and its slot is empty. *)
Theorem table_index_unchecked {T} (s : state T) (id : routine_t) :
  is_routine_t id ->
  Z.of_nat (length (routines (ord s))) < UINT_MAX1 ->
  (slot s id = None <-> ~ (1 <= id <= Z.of_nat (length (routines (ord s))))) /\
  (id = 0 \/ Z.of_nat (length (routines (ord s))) < id ->
     (current (ord s) = 0 -> forall ret, resume id ret s = Undefined) /\
     destroy id s = Undefined /\
     (current (ord s) = id -> forall fr k, yield fr k s = Undefined)) /\
  ((forall ret, resume id ret s = Ok (s, ret (-1))) ->
     1 <= id <= Z.of_nat (length (routines (ord s))) /\ slot s id = Some None).
Proof.
  intros Hid Hlen.
  pose proof (slot_in_range s id Hid Hlen) as Hslot.
  split; [exact Hslot|]. split.
  - intros Hout. assert (Hs : slot s id = None) by (apply Hslot; lia).
    repeat split.
    + intros Hcur ret. unfold resume. now rewrite Hcur, Hs.
    + unfold destroy. now rewrite Hs.
    + intros Hcur fr k. unfold yield. now rewrite Hcur, Hs.
  - intros Hret.
    destruct (slot s id) as [[r|]|] eqn:Hs.
    + exfalso. specialize (Hret (fun z => Run Host (Resume z (fun _ => Return)))).
      unfold resume in Hret. rewrite Hs in Hret.
      destruct (negb (current (ord s) =? 0)) eqn:Hc; [discriminate|].
      destruct (finished r); [discriminate|].
      destruct (negb (stack r)); [discriminate|].
      destruct (ctx r) as [c|]; [|discriminate].
      injection Hret as Hst Hctx.
      apply (f_equal (fun x => current (ord x))) in Hst. simpl in Hst.
      apply negb_false_iff, Z.eqb_eq in Hc.
      assert (Hn : Some (Some r) = @None (option (Routine T))) by (apply Hslot; lia).
      discriminate Hn.
    + split; [|reflexivity].
      destruct (Z_le_gt_dec 1 id) as [H1|H1];
        [destruct (Z_le_gt_dec id (Z.of_nat (length (routines (ord s))))) as [H2|H2]|];
        [lia| |]; exfalso;
        assert (Hn : Some None = @None (option (Routine T))) by (apply Hslot; lia);
        discriminate Hn.
    + exfalso. specialize (Hret (fun z => Run Host Return)).
      unfold resume in Hret. rewrite Hs in Hret.
      destruct (negb (current (ord s) =? 0)); discriminate.
Qed.

(** ** The end of a routine *)

(** C10. When the body of the routine stored in slot [id] returns, [entry]
    sets its completion flag, sets [current] to 0, appends [id] to the
    free-list and control goes to the saved host context. The slot still
    holds the routine, now finished: [id] is on the free-list and its slot
    is not empty. *)
Theorem entry_end_recycles_occupied_slot {T} (s : state T) (id : routine_t)
    (r : Routine T) (h : context T) :
  slot s id = Some (Some r) ->
  host_ctx (ord s) = Some h ->
  exists s',
    step s (Run (Body id (self r)) Return) = Ok (s', h) /\
    slot s' id = Some (Some (set_finished r)) /\
    finished (set_finished r) = true /\
    current (ord s') = 0 /\
    indexes (ord s') = indexes (ord s) ++ [id] /\
    In id (indexes (ord s')) /\
    slot s' id <> Some None.
Proof.
  intros Hs Hh. simpl. unfold entry_end. rewrite Hh.
  eexists. split; [reflexivity|].
  assert (Hslot : slot (set_ord s
            (set_indexes (set_current (set_routines (ord s)
               (write_finished (self r) (routines (ord s)))) 0)
               (indexes (ord s) ++ [id]))) id = Some (Some (set_finished r))).
  { unfold slot. simpl. rewrite slot_write_finished, Hs. simpl.
    now rewrite Nat.eqb_refl. }
  simpl. repeat split.
  - exact Hslot.
  - apply in_or_app. right. now left.
  - simpl in Hslot. rewrite Hslot. discriminate.
Qed.

(** ** Identifiers issued by create *)

Lemma create_fresh {T} (f : code T) (s : state T) :
  indexes (ord s) = [] ->
  exists s',
    create f s = Ok (s', to_routine_t (Z.of_nat (length (routines (ord s))) + 1)) /\
    indexes (ord s') = [] /\
    length (routines (ord s')) = S (length (routines (ord s))).
Proof.
  intros Hix. unfold create. rewrite Hix. eexists. split; [|split].
  - rewrite length_app. simpl length. do 3 f_equal. lia.
  - simpl. exact Hix.
  - simpl. rewrite length_app. simpl. lia.
Qed.

Lemma ids_from_lower n k : Forall (fun id => n < id) (ids_from n k).
Proof.
  revert n. induction k as [|k IH]; intros n; simpl; [constructor|].
  constructor; [lia|].
  eapply List.Forall_impl; [|apply IH]. simpl. intros; lia.
Qed.

Lemma ids_from_sorted n k : StronglySorted Z.lt (ids_from n k).
Proof.
  revert n. induction k as [|k IH]; intros n; simpl; [constructor|].
  constructor; [apply IH|apply ids_from_lower].
Qed.

Lemma ids_from_NoDup n k : NoDup (ids_from n k).
Proof.
  revert n. induction k as [|k IH]; intros n; simpl; [constructor|].
  constructor; [|apply IH].
  intros Hin. pose proof (ids_from_lower (n + 1) k) as H.
  rewrite Forall_forall in H. apply H in Hin. lia.
Qed.

(** X16. Back-to-back calls. Starting with an empty free-list, a sequence of
    [create] calls with nothing in between that keeps the table within the
    range of [routine_t] succeeds and returns, for a table of [n] slots, the
    identifiers [n + 1], [n + 2], ...: each is the size of the table after
    its call, they increase strictly and no two are equal. *)
Theorem create_ids_increase {T} (fs : list (code T)) (s : state T) :
  indexes (ord s) = [] ->
  Z.of_nat (length (routines (ord s))) + Z.of_nat (length fs) < UINT_MAX1 ->
  exists s',
    create_all fs s =
      Ok (s', ids_from (Z.of_nat (length (routines (ord s)))) (length fs)) /\
    length (routines (ord s')) = (length (routines (ord s)) + length fs)%nat /\
    StronglySorted Z.lt (ids_from (Z.of_nat (length (routines (ord s)))) (length fs)) /\
    NoDup (ids_from (Z.of_nat (length (routines (ord s)))) (length fs)).
Proof.
  intros Hix Hlen.
  enough (exists s',
    create_all fs s =
      Ok (s', ids_from (Z.of_nat (length (routines (ord s)))) (length fs)) /\
    length (routines (ord s')) = (length (routines (ord s)) + length fs)%nat) as (s' & H1 & H2).
  { exists s'. auto using ids_from_sorted, ids_from_NoDup. }
  revert s Hix Hlen. induction fs as [|f fs IH]; intros s Hix Hlen.
  - exists s. simpl. split; [reflexivity|lia].
  - destruct (create_fresh f s Hix) as (s1 & Hc & Hix1 & Hl1).
    simpl length in Hlen.
    destruct (IH s1 Hix1) as (s2 & Hall & Hl2); [rewrite Hl1; lia|].
    exists s2. split.
    + cbn [create_all]. rewrite Hc. cbn [obind]. rewrite Hall. cbn [obind].
      do 2 f_equal. cbn [length ids_from]. rewrite Hl1.
      replace (Z.of_nat (S (length (routines (ord s)))))
        with (Z.of_nat (length (routines (ord s))) + 1) by lia.
      f_equal. unfold to_routine_t, UINT_MAX1 in *. apply Z.mod_small. lia.
    + rewrite Hl2, Hl1. simpl length. lia.
Qed.

(** At the end of the range of [routine_t] the identifier wraps to 0. *)
Lemma create_wraps {T} (f : code T) (s : state T) :
  indexes (ord s) = [] ->
  Z.of_nat (length (routines (ord s))) = UINT_MAX1 - 1 ->
  exists s', create f s = Ok (s', 0).
Proof.
  intros Hix Hlen. destruct (create_fresh f s Hix) as (s' & Hc & _).
  exists s'. rewrite Hc, Hlen. reflexivity.
Qed.

(** ** create after a routine has run to its end *)

(** C2, at an input where it fails. A routine that returns at once is
    created and resumed; [entry] puts its identifier 1 on the free-list and
    leaves it in slot 1. The next [create] takes 1 from the free-list and
    its assertion on the slot fails. *)
Theorem create_after_completion_asserts :
  (exists s r,
     run 4 init (Run Host create_after_completion) =
       Ok (s, Run Host (Create Return (fun _ => Return))) /\
     indexes (ord s) = [1] /\
     slot s 1 = Some (Some r) /\ finished r = true /\
     create Return s = AssertFail) /\
  run 5 init (Run Host create_after_completion) = AssertFail.
Proof.
  split; [|vm_compute; reflexivity].
  eexists. eexists. split; [vm_compute; reflexivity|].
  repeat split; vm_compute; reflexivity.
Qed.

(** C6, at an input where it fails. Two [create] calls with no [destroy]
    between them, from the initial scheduler, whose free-list is empty: the
    first returns 1; the routine is resumed and its body returns, which
    puts 1 on the free-list; the second [create] takes 1 again, finds slot 1
    occupied and fails its assertion instead of returning 2. On the fiber
    backend, where [entry] leaves the free-list alone, the same calls
    return 1 and then 2, the sizes of the table. *)
Theorem create_ids_after_completion :
  (exists s1 s4 : state Z,
     create Return init = Ok (s1, 1) /\
     table_size s1 = 1%nat /\
     run 3 s1 (Run Host (Resume 1 (fun _ => Create Return (fun _ => Return)))) =
       Ok (s4, Run Host (Create Return (fun _ => Return))) /\
     indexes (ord s4) = [1] /\
     table_size s4 = 1%nat /\
     create Return s4 = AssertFail) /\
  (exists t1 t4 t5 : Fiber.state Z,
     Fiber.create Return Fiber.init = Ok (t1, 1) /\
     Fiber.run 3 t1
       (Fiber.At Host (Resume 1 (fun _ => Create Return (fun _ => Return)))) =
       Ok (t4, Fiber.At Host (Create Return (fun _ => Return))) /\
     Fiber.indexes (Fiber.ord t4) = [] /\
     Fiber.create Return t4 = Ok (t5, 2) /\
     length (Fiber.routines (Fiber.ord t5)) = 2%nat).
Proof.
  split.
  - eexists. eexists. split; [vm_compute; reflexivity|].
    split; [reflexivity|]. split; [vm_compute; reflexivity|].
    repeat split; vm_compute; reflexivity.
  - eexists. eexists. eexists. split; [vm_compute; reflexivity|].
    split; [vm_compute; reflexivity|]. split; [reflexivity|].
    split; [vm_compute; reflexivity|]. reflexivity.
Qed.

(** ** Channels *)

Section Channels.
Context {T : Type}.
Implicit Types (s : state T) (c : nat) (ch : Channel T).

Lemma chan_set_chan_eq s c ch : chan (set_chan s c ch) c = ch.
Proof. unfold chan, set_chan. simpl. now rewrite lookup_insert_eq. Qed.

Lemma chan_set_chan_ne s c c' ch : c <> c' -> chan (set_chan s c ch) c' = chan s c'.
Proof. intros H. unfold chan, set_chan. simpl. now rewrite lookup_insert_ne. Qed.

Lemma chan_set_ord s o c : chan (set_ord s o) c = chan s c.
Proof. reflexivity. Qed.

End Channels.

(** C8. [clear] empties the queue of its channel and leaves every binding
    as it was; [size] and [empty] return the length of the queue and whether
    it is empty, and leave the whole state, so binding and queue, as it was.
    None of the three touches the scheduler. *)
Theorem channel_backlog_operations {T} (s : state T) (c : nat) (fr : frame) :
  (forall k, step s (Run fr (Clear c k)) = Ok (clear c s, Run fr k)) /\
  (forall c', taker_ (chan (clear c s) c') = taker_ (chan s c')) /\
  list_ (chan (clear c s) c) = [] /\
  (forall c', c' <> c -> list_ (chan (clear c s) c') = list_ (chan s c')) /\
  ord (clear c s) = ord s /\
  (forall k, step s (Run fr (Size c k)) =
             Ok (s, Run fr (k (Z.of_nat (length (list_ (chan s c))))))) /\
  (forall k, step s (Run fr (Empty c k)) = Ok (s, Run fr (k (empty c s)))) /\
  (empty c s = true <-> list_ (chan s c) = []).
Proof.
  repeat split; try reflexivity.
  - intros c'. unfold clear. destruct (Nat.eq_dec c c') as [->|Hne].
    + now rewrite chan_set_chan_eq.
    + now rewrite chan_set_chan_ne.
  - unfold clear. now rewrite chan_set_chan_eq.
  - intros c' Hne. unfold clear. now rewrite chan_set_chan_ne.
  - unfold empty. destruct (list_ (chan s c)); [reflexivity|discriminate].
  - unfold empty. intros ->. reflexivity.
Qed.

(** ** push *)

Section Push.
Context {T : Type}.
Implicit Types (s : state T) (c : nat) (v : T) (fr : frame) (k : code T).

Lemma slot_set_chan s c ch id : slot (set_chan s c ch) id = slot s id.
Proof. reflexivity. Qed.

Lemma pushed_chan s c v :
  list_ (chan (pushed s c v) c) = list_ (chan s c) ++ [v] /\
  taker_ (chan (pushed s c v) c) = taker_ (chan s c) /\
  ord (pushed s c v) = ord s.
Proof. unfold pushed. rewrite chan_set_chan_eq. auto. Qed.

Lemma push_no_consumer s c v ret :
  taker_ (chan s c) = 0 \/ taker_ (chan s c) = current (ord s) ->
  push c v ret s = Ok (pushed s c v, ret).
Proof.
  intros H. unfold push. fold (pushed s c v).
  destruct (pushed_chan s c v) as (_ & -> & ->).
  destruct H as [-> | ->]; [reflexivity|].
  rewrite Z.eqb_refl. now rewrite andb_false_r.
Qed.

Lemma push_resumes s c v ret :
  taker_ (chan s c) <> 0 -> taker_ (chan s c) <> current (ord s) ->
  push c v ret s = resume (taker_ (chan s c)) (fun _ => ret) (pushed s c v).
Proof.
  intros H0 Hc. unfold push. fold (pushed s c v).
  destruct (pushed_chan s c v) as (_ & -> & ->).
  destruct (Z.eqb_spec (taker_ (chan s c)) 0); [contradiction|].
  destruct (Z.eqb_spec (taker_ (chan s c)) (current (ord s))); [contradiction|].
  reflexivity.
Qed.

End Push.

(** C3 as amended. [push] appends the value at the tail of the queue. With
    no consumer bound, or when the caller is the consumer, it returns at
    once. With a consumer bound that is not the caller:
    - from the host context ([current () == 0]) and for a consumer that is
      suspended, control goes to the consumer while the caller of [push] is
      kept in the saved host context; a consumer suspended in [pop] on the
      empty channel takes the value in its next step, before [push] has
      returned; a consumer that has never run is started the same way; for
      an empty slot or a finished consumer [resume] returns its indicator
      and [push] returns;
    - from inside a running routine ([current () != 0]) the assertion that
      opens [resume] fails. *)
Theorem push_hand_off {T} (s : state T) (c : nat) (v : T) (fr : frame) (k : code T) :
  (taker_ (chan s c) = 0 \/ taker_ (chan s c) = current (ord s) ->
     exists s', step s (Run fr (Push c v k)) = Ok (s', Run fr k) /\
       list_ (chan s' c) = list_ (chan s c) ++ [v] /\
       taker_ (chan s' c) = taker_ (chan s c) /\
       ord s' = ord s) /\
  (forall r cr,
     taker_ (chan s c) <> 0 -> current (ord s) = 0 ->
     slot s (taker_ (chan s c)) = Some (Some r) ->
     finished r = false -> stack r = true -> ctx r = Some cr ->
     exists s', step s (Run fr (Push c v k)) = Ok (s', cr) /\
       list_ (chan s' c) = list_ (chan s c) ++ [v] /\
       taker_ (chan s' c) = taker_ (chan s c) /\
       current (ord s') = taker_ (chan s c) /\
       host_ctx (ord s') = Some (Run fr k) /\
       (forall k', cr = Run (Body (taker_ (chan s c)) (self r)) (PopLoop c k') ->
                   list_ (chan s c) = [] ->
          exists s'', run 2 s (Run fr (Push c v k)) =
                        Ok (s'', Run (Body (taker_ (chan s c)) (self r)) (k' v)) /\
            list_ (chan s'' c) = [] /\
            current (ord s'') = taker_ (chan s c) /\
            host_ctx (ord s'') = Some (Run fr k))) /\
  (forall r,
     taker_ (chan s c) <> 0 -> current (ord s) = 0 ->
     slot s (taker_ (chan s c)) = Some (Some r) ->
     finished r = false -> stack r = false ->
     exists s', step s (Run fr (Push c v k)) = Ok (s', Entry) /\
       list_ (chan s' c) = list_ (chan s c) ++ [v] /\
       current (ord s') = taker_ (chan s c) /\
       slot s' (taker_ (chan s c)) = Some (Some (make_stack r)) /\
       host_ctx (ord s') = Some (Run fr k)) /\
  (taker_ (chan s c) <> 0 -> current (ord s) = 0 ->
     slot s (taker_ (chan s c)) = Some None \/
     (exists r, slot s (taker_ (chan s c)) = Some (Some r) /\ finished r = true) ->
     step s (Run fr (Push c v k)) = Ok (pushed s c v, Run fr k)) /\
  (taker_ (chan s c) <> 0 -> current (ord s) <> 0 ->
     taker_ (chan s c) <> current (ord s) ->
     step s (Run fr (Push c v k)) = AssertFail).
Proof.
  split; [|split; [|split; [|split]]].
  - intros H. exists (pushed s c v). cbn [step].
    rewrite push_no_consumer by exact H.
    destruct (pushed_chan s c v) as (? & ? & ?). auto.
  - intros r cr H0 Hcur Hs Hf Hst Hctx.
    assert (Hstep : step s (Run fr (Push c v k)) =
              Ok (set_ord (set_ord (pushed s c v) (set_current (ord s) (taker_ (chan s c))))
                    (set_host_ctx (set_current (ord s) (taker_ (chan s c))) (Run fr k)), cr)).
    { cbn [step]. rewrite push_resumes by congruence.
      unfold resume. destruct (pushed_chan s c v) as (_ & _ & Ho).
      rewrite Ho, Hcur. cbn [Z.eqb negb].
      change (slot (pushed s c v) (taker_ (chan s c))) with (slot s (taker_ (chan s c))).
      rewrite Hs, Hf, Hst. cbn [negb]. rewrite Hctx. reflexivity. }
    eexists. split; [exact Hstep|].
    destruct (pushed_chan s c v) as (Hl & Ht & Ho).
    repeat split; try assumption.
    intros k' -> Hempty.
    eexists. split.
    + cbn [run]. rewrite Hstep. cbn [obind step]. unfold pop_loop.
      rewrite !chan_set_ord, Hl, Hempty. cbn [app obind]. reflexivity.
    + rewrite chan_set_chan_eq. auto.
  - intros r H0 Hcur Hs Hf Hst.
    destruct (pushed_chan s c v) as (Hl & Ht & Ho).
    assert (Hrange : 0 <= slot_index (taker_ (chan s c))
                       < Z.of_nat (length (routines (ord (pushed s c v)))))
      by (rewrite Ho; eapply nth_Z_Some_range; exact Hs).
    eexists. split.
    + cbn [step]. rewrite push_resumes by congruence.
      unfold resume. rewrite Ho, Hcur. cbn [Z.eqb negb].
      change (slot (pushed s c v) (taker_ (chan s c))) with (slot s (taker_ (chan s c))).
      rewrite Hs, Hf, Hst. cbn [negb]. reflexivity.
    + repeat split; try assumption.
      unfold slot. cbn [ord routines set_ord set_routines set_current set_host_ctx set_slot].
      now rewrite nth_Z_set_Z_eq.
  - intros H0 Hcur Hfail. cbn [step]. rewrite push_resumes by congruence.
    unfold resume. destruct (pushed_chan s c v) as (_ & _ & Ho). rewrite Ho, Hcur.
    cbn [Z.eqb negb].
    change (slot (pushed s c v) (taker_ (chan s c))) with (slot s (taker_ (chan s c))).
    destruct Hfail as [Hs|(r & Hs & Hf)]; [now rewrite Hs|now rewrite Hs, Hf].
  - intros H0 Hcur Hne. cbn [step]. rewrite push_resumes by assumption.
    apply resume_asserts_host. destruct (pushed_chan s c v) as (_ & _ & ->). exact Hcur.
Qed.

(** C3 as stated, at an input where it fails: the producer, routine 1, is
    running and pushes on channel 0, whose consumer, routine 2, is suspended
    in [pop]; the push ends in a failed assertion and the consumer does not
    run. *)
Lemma push_from_routine_asserts :
  exists s r,
    run 7 init (Run Host push_from_routine) =
      Ok (s, Run (Body 1 0%nat) (Push 0%nat 7 Return)) /\
    current (ord s) = 1 /\
    taker_ (chan s 0%nat) = 2 /\
    slot s 2 = Some (Some r) /\ finished r = false /\
    ctx r = Some (Run (Body 2 1%nat) (PopLoop 0%nat (fun _ => Return))) /\
    step s (Run (Body 1 0%nat) (Push 0%nat 7 Return)) = AssertFail /\
    run 8 init (Run Host push_from_routine) = AssertFail.
Proof.
  eexists. eexists. split; [vm_compute; reflexivity|].
  repeat split; vm_compute; reflexivity.
Qed.

Lemma consumer_waiting_reachable :
  run 4 init (Run Host push_from_host) = Ok (consumer_waiting, Run Host (Push 0%nat 7 Return)).
Proof. vm_compute. reflexivity. Qed.

Lemma push_hand_off_witness :
  exists s'',
    run 2 consumer_waiting (Run Host (Push 0%nat 7 Return)) =
      Ok (s'', Run (Body 1 0%nat) (Push 1%nat 7 Return)) /\
    list_ (chan s'' 0%nat) = [] /\
    host_ctx (ord s'') = Some (Run Host Return).
Proof.
  destruct (push_hand_off consumer_waiting 0%nat 7 Host Return) as (_ & H & _).
  destruct (H (mkRoutine 0%nat (Pop 0%nat (fun v => Push 1%nat v Return)) true false
                 (Some (Run (Body 1 0%nat) (PopLoop 0%nat (fun v => Push 1%nat v Return)))))
              (Run (Body 1 0%nat) (PopLoop 0%nat (fun v => Push 1%nat v Return))))
    as (s' & _ & _ & _ & _ & _ & Hwake);
    [vm_compute; discriminate|reflexivity|reflexivity|reflexivity|reflexivity|reflexivity|].
  destruct (Hwake (fun v => Push 1%nat v Return)) as (s'' & Hrun & Hl & _ & Hh);
    [reflexivity|reflexivity|].
  exists s''. auto.
Defined.

(** ** Steps that leave the channels alone *)

Ltac break_match H :=
  match type of H with
  | context [match ?x with _ => _ end] => destruct x eqn:?
  end.

Ltac invert_ok H :=
  repeat break_match H; try discriminate H;
  try (injection H as <- <-).

Section StepChannels.
Context {T : Type}.
Implicit Types (s : state T).

Lemma resume_chans id ret s s' c' :
  resume id ret s = Ok (s', c') -> chans s' = chans s.
Proof. unfold resume. intros H. invert_ok H; reflexivity. Qed.

Lemma yield_chans fr k s s' c' :
  yield fr k s = Ok (s', c') -> chans s' = chans s.
Proof. unfold yield. intros H. invert_ok H; reflexivity. Qed.

Lemma entry_begin_chans s s' c' :
  entry_begin s = Ok (s', c') -> chans s' = chans s.
Proof. unfold entry_begin. intros H. invert_ok H; reflexivity. Qed.

Lemma entry_end_chans id a s s' c' :
  entry_end id a s = Ok (s', c') -> chans s' = chans s.
Proof. unfold entry_end. intros H. invert_ok H; reflexivity. Qed.

Lemma create_chans f s s' id :
  create f s = Ok (s', id) -> chans s' = chans s.
Proof. unfold create. intros H. invert_ok H; reflexivity. Qed.

Lemma destroy_chans id s s' :
  destroy id s = Ok s' -> chans s' = chans s.
Proof.
  unfold destroy. intros H. repeat break_match H; try discriminate H.
  injection H as <-. reflexivity.
Qed.

Lemma chans_chan s s' ch : chans s' = chans s -> chan s' ch = chan s ch.
Proof. unfold chan. now intros ->. Qed.

Lemma list_set_chan s c ch q t :
  list_ (chan (set_chan s c (mkChannel q t)) ch) =
  if Nat.eqb c ch then q else list_ (chan s ch).
Proof.
  destruct (Nat.eqb_spec c ch) as [->|Hne].
  - now rewrite chan_set_chan_eq.
  - now rewrite chan_set_chan_ne.
Qed.

Lemma list_rebind s c t ch :
  list_ (chan (set_chan s c (mkChannel (list_ (chan s c)) t)) ch) = list_ (chan s ch).
Proof.
  rewrite list_set_chan. destruct (Nat.eqb_spec c ch) as [->|]; reflexivity.
Qed.

Lemma pop_loop_queue fr c k s s' c' ch :
  pop_loop fr c k s = Ok (s', c') ->
  list_ (chan s' ch) = apply_event ch (front_event s c) (list_ (chan s ch)).
Proof.
  unfold pop_loop, front_event. intros H.
  destruct (list_ (chan s c)) as [|v rest] eqn:Hq.
  - apply yield_chans in H. now rewrite (chans_chan _ _ _ H).
  - injection H as <- <-. rewrite list_set_chan. simpl.
    destruct (Nat.eqb_spec c ch) as [->|Hne]; [now rewrite Hq|reflexivity].
Qed.

Lemma step_queue s c s' c' ch :
  step s c = Ok (s', c') ->
  list_ (chan s' ch) = apply_event ch (event_of s c) (list_ (chan s ch)).
Proof.
  intros H. destruct c as [|fr body].
  - apply entry_begin_chans in H. now rewrite (chans_chan _ _ _ H).
  - destruct body; cbn [step] in H; cbn [event_of apply_event].
    + destruct fr; [injection H as <- <-; reflexivity|].
      apply entry_end_chans in H. now rewrite (chans_chan _ _ _ H).
    + destruct (create body s) as [[s1 id]| |] eqn:Hc; try discriminate H.
      cbn [obind] in H. injection H as <- <-.
      apply create_chans in Hc. now rewrite (chans_chan _ _ _ Hc).
    + destruct (destroy id s) as [s1| |] eqn:Hd; try discriminate H.
      cbn [obind] in H. injection H as <- <-.
      apply destroy_chans in Hd. now rewrite (chans_chan _ _ _ Hd).
    + apply resume_chans in H. now rewrite (chans_chan _ _ _ H).
    + apply yield_chans in H. now rewrite (chans_chan _ _ _ H).
    + injection H as <- <-. reflexivity.
    + injection H as <- <-. reflexivity.
    + unfold await_loop in H. destruct polls.
      * injection H as <- <-. reflexivity.
      * destruct (negb (current (ord s) =? 0)).
        -- apply yield_chans in H. now rewrite (chans_chan _ _ _ H).
        -- injection H as <- <-. reflexivity.
    + injection H as <- <-. unfold consume. now rewrite list_rebind.
    + unfold push in H.
      match type of H with
      | (if ?b then _ else _) = _ => destruct b
      end.
      * apply resume_chans in H. rewrite (chans_chan _ _ _ H), list_set_chan.
        destruct (Nat.eqb_spec c ch) as [->|]; reflexivity.
      * injection H as <- <-. rewrite list_set_chan.
        destruct (Nat.eqb_spec c ch) as [->|]; reflexivity.
    + unfold pop in H. apply (pop_loop_queue _ _ _ _ _ _ ch) in H.
      rewrite H. unfold front_event.
      destruct (taker_ (chan s c) =? 0); [|reflexivity].
      rewrite !list_rebind. reflexivity.
    + eapply pop_loop_queue. exact H.
    + injection H as <- <-. unfold clear. now rewrite list_set_chan.
    + unfold touch in H.
      match type of H with
      | (if ?b then _ else _) = _ => destruct b
      end.
      * apply resume_chans in H. now rewrite (chans_chan _ _ _ H).
      * injection H as <- <-. reflexivity.
    + injection H as <- <-. reflexivity.
    + injection H as <- <-. reflexivity.
Qed.

Lemma front_event_head s c e :
  front_event s c = Some e -> exists v rest, e = Popped c v /\ list_ (chan s c) = v :: rest.
Proof.
  unfold front_event. destruct (list_ (chan s c)) as [|v rest]; [discriminate|].
  intros [= <-]. eauto.
Qed.

Lemma event_of_popped s c ch v :
  event_of s c = Some (Popped ch v) -> exists rest, list_ (chan s ch) = v :: rest.
Proof.
  destruct c as [|fr body]; [discriminate|].
  destruct body; cbn [event_of]; try discriminate;
    intros H; apply front_event_head in H as (v' & rest & [= -> ->] & Hq); eauto.
Qed.

Lemma trace_queue n : forall s c s' c' ch,
  run n s c = Ok (s', c') ->
  cleared ch (trace n s c) = false ->
  pops ch (trace n s c) ++ list_ (chan s' ch) =
  list_ (chan s ch) ++ pushes ch (trace n s c).
Proof.
  induction n as [|n IH]; intros s c s' c' ch Hrun Hclr.
  - injection Hrun as <- <-. simpl. now rewrite app_nil_r.
  - cbn [run] in Hrun. cbn [trace] in Hclr |- *.
    destruct (step s c) as [[s1 c1]| |] eqn:Hstep; try discriminate Hrun.
    cbn [obind] in Hrun.
    pose proof (step_queue _ _ _ _ ch Hstep) as Hq.
    destruct (event_of s c) as [[c0 v|c0 v|c0]|] eqn:He;
      cbn [apply_event pushes pops cleared] in *.
    + destruct (Nat.eqb c0 ch).
      * rewrite (IH _ _ _ _ _ Hrun Hclr), Hq, <- app_assoc. reflexivity.
      * rewrite (IH _ _ _ _ _ Hrun Hclr), Hq. reflexivity.
    + destruct (Nat.eqb_spec c0 ch) as [->|Hne].
      * apply event_of_popped in He as (rest & Hl). rewrite Hl in Hq |- *.
        cbn [tl] in Hq. cbn [app]. f_equal.
        rewrite (IH _ _ _ _ _ Hrun Hclr), Hq. reflexivity.
      * rewrite (IH _ _ _ _ _ Hrun Hclr), Hq. reflexivity.
    + apply orb_false_iff in Hclr as [Hc0 Hclr]. rewrite Hc0 in Hq.
      rewrite (IH _ _ _ _ _ Hrun Hclr), Hq. reflexivity.
    + rewrite (IH _ _ _ _ _ Hrun Hclr), Hq. reflexivity.
Qed.

End StepChannels.

Lemma pop_returns_front {T} (s : state T) (fr : frame) (ch : nat) (k : T -> code T)
    (v : T) (rest : list T) :
  list_ (chan s ch) = v :: rest ->
  (exists s1, step s (Run fr (Pop ch k)) = Ok (s1, Run fr (k v)) /\
              list_ (chan s1 ch) = rest) /\
  (exists s1, step s (Run fr (PopLoop ch k)) = Ok (s1, Run fr (k v)) /\
              list_ (chan s1 ch) = rest) /\
  event_of s (Run fr (Pop ch k)) = Some (Popped ch v) /\
  event_of s (Run fr (PopLoop ch k)) = Some (Popped ch v).
Proof.
  intros Hq.
  assert (Hloop : forall s0, list_ (chan s0 ch) = v :: rest ->
            exists s1, pop_loop fr ch k s0 = Ok (s1, Run fr (k v)) /\
                       list_ (chan s1 ch) = rest).
  { intros s0 H0. unfold pop_loop. rewrite H0. eexists. split; [reflexivity|].
    now rewrite chan_set_chan_eq. }
  repeat split.
  - cbn [step]. unfold pop. apply Hloop.
    destruct (taker_ (chan s ch) =? 0); [now rewrite list_rebind|exact Hq].
  - cbn [step]. now apply Hloop.
  - cbn [event_of]. unfold front_event. now rewrite Hq.
  - cbn [event_of]. unfold front_event. now rewrite Hq.
Qed.

(** C4. Take any run of the machine, from any state and context, in which
    channel [ch] is not cleared. The values popped from [ch] during the run,
    in the order of the pops, followed by the values left in its queue, are
    the values queued at the start followed by the values pushed during the
    run, in the order of the pushes. So with an empty queue at the start the
    pops return the pushed values [v1, v2, ...] in that order. A pop that
    finds the queue non-empty returns its head to the caller and removes
    it. *)
Theorem channel_fifo {T} (n : nat) (s s' : state T) (c c' : context T) (ch : nat) :
  run n s c = Ok (s', c') ->
  cleared ch (trace n s c) = false ->
  pops ch (trace n s c) ++ list_ (chan s' ch) =
    list_ (chan s ch) ++ pushes ch (trace n s c) /\
  (list_ (chan s ch) = [] ->
     pops ch (trace n s c) =
       firstn (length (pops ch (trace n s c))) (pushes ch (trace n s c)) /\
     (list_ (chan s' ch) = [] -> pops ch (trace n s c) = pushes ch (trace n s c))) /\
  (forall (s0 : state T) fr k v rest,
     list_ (chan s0 ch) = v :: rest ->
     event_of s0 (Run fr (Pop ch k)) = Some (Popped ch v) /\
     event_of s0 (Run fr (PopLoop ch k)) = Some (Popped ch v) /\
     (exists s1, step s0 (Run fr (Pop ch k)) = Ok (s1, Run fr (k v)) /\
                 list_ (chan s1 ch) = rest) /\
     (exists s1, step s0 (Run fr (PopLoop ch k)) = Ok (s1, Run fr (k v)) /\
                 list_ (chan s1 ch) = rest)).
Proof.
  intros Hrun Hclr.
  pose proof (trace_queue n s c s' c' ch Hrun Hclr) as Heq.
  split; [exact Heq|]. split.
  - intros Hempty. rewrite Hempty in Heq. cbn [app] in Heq. split.
    + rewrite <- Heq. rewrite firstn_app, Nat.sub_diag, firstn_all. cbn [firstn].
      now rewrite app_nil_r.
    + intros Hend. rewrite Hend, app_nil_r in Heq. exact Heq.
  - intros s0 fr k v rest Hq.
    destruct (pop_returns_front s0 fr ch k v rest Hq) as (H1 & H2 & H3 & H4). auto.
Qed.

Lemma channel_fifo_witness :
  pops 0%nat (trace 14 init (Run Host three_pushes)) = [1; 2; 3] /\
  pushes 0%nat (trace 14 init (Run Host three_pushes)) = [1; 2; 3] /\
  pushes 1%nat (trace 14 init (Run Host three_pushes)) = [6] /\
  exists s', run 14 init (Run Host three_pushes) = Ok (s', Run Host Return) /\
    pops 0%nat (trace 14 init (Run Host three_pushes)) ++ list_ (chan s' 0%nat) =
    list_ (chan init 0%nat) ++ pushes 0%nat (trace 14 init (Run Host three_pushes)).
Proof.
  split; [vm_compute; reflexivity|].
  split; [vm_compute; reflexivity|].
  split; [vm_compute; reflexivity|].
  eexists. split; [vm_compute; reflexivity|].
  eapply channel_fifo; vm_compute; reflexivity.
Defined.

(** ** The completion flag *)

Section Completion.
Context {T : Type}.
Implicit Types (s : state T) (id : routine_t) (r : Routine T).

Lemma nth_Z_snoc {A} (l : list A) (x : A) (i : Z) :
  nth_Z (l ++ [x]) i = if i =? Z.of_nat (length l) then Some x else nth_Z l i.
Proof.
  destruct (Z.eqb_spec i (Z.of_nat (length l))) as [->|Hne].
  - apply nth_Z_app_last.
  - destruct (Z_lt_ge_dec i (Z.of_nat (length l))) as [Hlt|Hge].
    + now apply nth_Z_app_l.
    + assert (nth_Z l i = None) as -> by (apply nth_Z_None; lia).
      apply nth_Z_None. rewrite length_app. simpl. lia.
Qed.

Lemma slot_set_slot s id0 q id :
  slot (set_slot s id0 q) id =
  if slot_index id0 =? slot_index id
  then option_map (fun _ => q) (slot s id0)
  else slot s id.
Proof. unfold slot, set_slot. simpl. apply nth_Z_set_Z. Qed.

Lemma slot_same_index s id0 id :
  slot_index id0 = slot_index id -> slot s id0 = slot s id.
Proof. unfold slot. now intros ->. Qed.

Lemma create_slot_step c f s s' id0 id :
  create f s = Ok (s', id0) -> slot_step c (slot s id) (slot s' id).
Proof.
  unfold create. intros H.
  destruct (indexes (ord s)) as [|i rest] eqn:Hix.
  - injection H as <- <-. unfold slot. simpl. rewrite nth_Z_snoc.
    destruct (Z.eqb_spec (slot_index id) (Z.of_nat (length (routines (ord s))))) as [He|Hne].
    + apply slot_created; auto. left. apply nth_Z_None. lia.
    + apply slot_same.
  - match type of H with
    | match slot ?s2 i with _ => _ end = _ =>
        change (slot s2 i) with (slot s i) in H;
        destruct (slot s i) as [[r0|]|] eqn:Hs; try discriminate H
    end.
    injection H as <- <-. rewrite slot_set_slot.
    change (slot (set_ord _ _) i) with (slot s i).
    change (slot (set_ord _ _) id) with (slot s id).
    destruct (Z.eqb_spec (slot_index i) (slot_index id)) as [He|Hne].
    + rewrite Hs. simpl. apply slot_created; auto.
      right. rewrite <- (slot_same_index s _ _ He). exact Hs.
    + apply slot_same.
Qed.

Lemma destroy_slot_step c id0 s s' id :
  destroy id0 s = Ok s' -> slot_step c (slot s id) (slot s' id).
Proof.
  unfold destroy. intros H.
  destruct (slot s id0) as [[r0|]|] eqn:Hs; try discriminate H.
  injection H as <-.
  change (slot (set_ord ?a _) id) with (slot a id).
  rewrite slot_set_slot.
  destruct (Z.eqb_spec (slot_index id0) (slot_index id)) as [He|Hne].
  - rewrite Hs, <- (slot_same_index s _ _ He), Hs. simpl. apply slot_destroyed.
  - apply slot_same.
Qed.

Lemma resume_slot_step c id0 ret s s' c' id :
  resume id0 ret s = Ok (s', c') -> slot_step c (slot s id) (slot s' id).
Proof.
  unfold resume. intros H.
  destruct (negb (current (ord s) =? 0)); [discriminate H|].
  destruct (slot s id0) as [[r0|]|] eqn:Hs; try discriminate H.
  - destruct (finished r0) eqn:Hf; [injection H as <- <-; apply slot_same|].
    destruct (negb (stack r0)).
    + injection H as <- <-.
      change (slot (set_ord (set_ord ?a _) _) id) with (slot a id).
      rewrite slot_set_slot.
      destruct (Z.eqb_spec (slot_index id0) (slot_index id)) as [He|Hne].
      * rewrite Hs, <- (slot_same_index s _ _ He), Hs. simpl. now apply slot_started.
      * apply slot_same.
    + destruct (ctx r0); [|discriminate H]. injection H as <- <-. apply slot_same.
  - injection H as <- <-. apply slot_same.
Qed.

Lemma yield_slot_step c fr k s s' c' id :
  yield fr k s = Ok (s', c') -> slot_step c (slot s id) (slot s' id).
Proof.
  unfold yield. intros H.
  destruct (slot s (current (ord s))) as [[r0|]|] eqn:Hs; try discriminate H.
  destruct (negb (on_stack fr r0)); [discriminate H|].
  destruct (host_ctx (ord s)); [|discriminate H]. injection H as <- <-.
  rewrite slot_set_slot.
  change (slot (set_ord s _) ?x) with (slot s x).
  destruct (Z.eqb_spec (slot_index (current (ord s))) (slot_index id)) as [He|Hne].
  - rewrite Hs, <- (slot_same_index s _ _ He), Hs. simpl. apply slot_suspended.
  - apply slot_same.
Qed.

Lemma entry_end_slot_step id0 a s s' c' id :
  entry_end id0 a s = Ok (s', c') ->
  slot_step (Run (Body id0 a) Return) (slot s id) (slot s' id).
Proof.
  unfold entry_end. intros H.
  destruct (host_ctx (ord s)); [|discriminate H]. injection H as <- <-.
  unfold slot at 2. simpl. rewrite slot_write_finished.
  destruct (slot s id) as [[r0|]|]; simpl; try apply slot_same.
  destruct (Nat.eqb_spec (self r0) a) as [<-|Hne].
  - now apply (slot_finished _ r0 id0).
  - apply slot_same.
Qed.

Lemma step_slot s c s' c' id :
  step s c = Ok (s', c') -> slot_step c (slot s id) (slot s' id).
Proof.
  intros H. destruct c as [|fr body].
  - cbn [step] in H. unfold entry_begin in H.
    destruct (slot s (current (ord s))) as [[r0|]|]; try discriminate H.
    injection H as <- <-. apply slot_same.
  - destruct body; cbn [step] in H.
    + destruct fr; [injection H as <- <-; apply slot_same|].
      eapply entry_end_slot_step; eauto.
    + destruct (create body s) as [[s1 id1]| |] eqn:Hc; try discriminate H.
      cbn [obind] in H. injection H as <- <-. eapply create_slot_step; eauto.
    + destruct (destroy id0 s) as [s1| |] eqn:Hd; try discriminate H.
      cbn [obind] in H. injection H as <- <-. eapply destroy_slot_step; eauto.
    + eapply resume_slot_step; eauto.
    + eapply yield_slot_step; eauto.
    + injection H as <- <-. apply slot_same.
    + injection H as <- <-. apply slot_same.
    + unfold await_loop in H. destruct polls.
      * injection H as <- <-. apply slot_same.
      * destruct (negb (current (ord s) =? 0)).
        -- eapply yield_slot_step; eauto.
        -- injection H as <- <-. apply slot_same.
    + injection H as <- <-. apply slot_same.
    + unfold push in H.
      match type of H with
      | (if ?b then _ else _) = _ => destruct b
      end.
      * apply (resume_slot_step (Run fr (Push c v body)) _ _ _ _ _ id) in H. exact H.
      * injection H as <- <-. apply slot_same.
    + unfold pop, pop_loop in H.
      match type of H with
      | match list_ (chan ?s1 c) with _ => _ end = _ =>
          destruct (list_ (chan s1 c));
          [apply (yield_slot_step (Run fr (Pop c k)) _ _ _ _ _ id) in H;
           destruct (taker_ (chan s c) =? 0); exact H
          |injection H as <- <-; destruct (taker_ (chan s c) =? 0); apply slot_same]
      end.
    + unfold pop_loop in H. destruct (list_ (chan s c)).
      * eapply yield_slot_step; eauto.
      * injection H as <- <-. apply slot_same.
    + injection H as <- <-. apply slot_same.
    + unfold touch in H.
      match type of H with
      | (if ?b then _ else _) = _ => destruct b
      end.
      * eapply resume_slot_step; eauto.
      * injection H as <- <-. apply slot_same.
    + injection H as <- <-. apply slot_same.
    + injection H as <- <-. apply slot_same.
Qed.

End Completion.

Section Resumed.
Context {T : Type}.
Implicit Types (s : state T) (id : routine_t) (r : Routine T).

Lemma resume_current id ret s s' c' :
  resume id ret s = Ok (s', c') ->
  current (ord s') = current (ord s) \/ enters s s'.
Proof.
  unfold resume. intros H.
  destruct (Z.eqb_spec (current (ord s)) 0) as [Hc|]; [|discriminate H]. cbn [negb] in H.
  destruct (slot s id) as [[r0|]|] eqn:Hs; try discriminate H.
  - destruct (finished r0) eqn:Hf; [injection H as <- <-; now left|].
    right. split; [exact Hc|]. exists r0.
    destruct (negb (stack r0)).
    + injection H as <- <-. simpl. auto.
    + destruct (ctx r0); [|discriminate H]. injection H as <- <-. simpl. auto.
  - injection H as <- <-. now left.
Qed.

Lemma yield_current fr k s s' c' :
  yield fr k s = Ok (s', c') -> current (ord s') = 0.
Proof. unfold yield. intros H. invert_ok H; reflexivity. Qed.

Lemma create_current f s s' id :
  create f s = Ok (s', id) -> current (ord s') = current (ord s).
Proof. unfold create. intros H. invert_ok H; reflexivity. Qed.

Lemma destroy_current id s s' :
  destroy id s = Ok s' -> current (ord s') = current (ord s).
Proof.
  unfold destroy. intros H. repeat break_match H; try discriminate H.
  injection H as <-. reflexivity.
Qed.

Lemma step_current s c s' c' :
  step s c = Ok (s', c') ->
  current (ord s') = current (ord s) \/ current (ord s') = 0 \/ enters s s'.
Proof.
  intros H. destruct c as [|fr body].
  - cbn [step] in H. unfold entry_begin in H. invert_ok H. now left.
  - destruct body; cbn [step] in H.
    + destruct fr; [injection H as <- <-; now left|].
      unfold entry_end in H. invert_ok H. right. now left.
    + destruct (create body s) as [[s1 id1]| |] eqn:Hc; try discriminate H.
      cbn [obind] in H. injection H as <- <-. left. eapply create_current; eauto.
    + destruct (destroy id s) as [s1| |] eqn:Hd; try discriminate H.
      cbn [obind] in H. injection H as <- <-. left. eapply destroy_current; eauto.
    + apply resume_current in H. tauto.
    + apply yield_current in H. tauto.
    + injection H as <- <-. now left.
    + injection H as <- <-. now left.
    + unfold await_loop in H. destruct polls.
      * injection H as <- <-. now left.
      * destruct (negb (current (ord s) =? 0)).
        -- apply yield_current in H. tauto.
        -- injection H as <- <-. now left.
    + injection H as <- <-. now left.
    + unfold push in H.
      match type of H with
      | (if ?b then _ else _) = _ => destruct b
      end.
      * apply resume_current in H. destruct H as [H|H]; [left|right; right]; exact H.
      * injection H as <- <-. now left.
    + unfold pop, pop_loop in H.
      match type of H with
      | match list_ (chan ?s1 c) with _ => _ end = _ =>
          destruct (list_ (chan s1 c));
          [apply yield_current in H; tauto
          |injection H as <- <-; destruct (taker_ (chan s c) =? 0); now left]
      end.
    + unfold pop_loop in H. destruct (list_ (chan s c)).
      * apply yield_current in H. tauto.
      * injection H as <- <-. now left.
    + injection H as <- <-. now left.
    + unfold touch in H.
      match type of H with
      | (if ?b then _ else _) = _ => destruct b
      end.
      * apply resume_current in H. tauto.
      * injection H as <- <-. now left.
    + injection H as <- <-. now left.
    + injection H as <- <-. now left.
Qed.

End Resumed.

(** ** A routine that yields once *)

Ltac table_lookup Hrange :=
  unfold slot; cbn [ord routines set_ord set_routines set_current set_host_ctx
                    set_indexes set_slot];
  rewrite ?nth_Z_set_Z_eq by (rewrite ?length_set_Z; exact Hrange).

Lemma yield_once_then_return {T} (s : state T) (id : routine_t) (r : Routine T)
    (k : Z -> Z -> Z -> code T) :
  current (ord s) = 0 ->
  slot s id = Some (Some r) ->
  func r = Yield Return -> stack r = false -> finished r = false ->
  exists s1 s2 r1 r2,
    run 3 s (Run Host (three_resumes id k)) =
      Ok (s1, Run Host (Resume id (fun r2 => Resume id (fun r3 => k 0 r2 r3)))) /\
    current (ord s1) = 0 /\ slot s1 id = Some (Some r1) /\ finished r1 = false /\
    ctx r1 = Some (Run (Body id (self r)) Return) /\
    run 5 s (Run Host (three_resumes id k)) =
      Ok (s2, Run Host (Resume id (fun r3 => k 0 0 r3))) /\
    current (ord s2) = 0 /\ slot s2 id = Some (Some r2) /\ finished r2 = true /\
    self r2 = self r /\
    run 6 s (Run Host (three_resumes id k)) = Ok (s2, Run Host (k 0 0 (-2))).
Proof.
  intros Hcur Hs Hfunc Hstack Hfin.
  assert (Hrange : 0 <= slot_index id < Z.of_nat (length (routines (ord s))))
    by (eapply nth_Z_Some_range; exact Hs).
  set (K1 := fun r2 => Resume id (fun r3 => k 0 r2 r3)).
  set (K2 := fun r3 => k 0 0 r3).
  set (body := Body id (self r)).
  (* first resume: a stack is made and entry starts *)
  set (sa := set_ord (set_ord (set_slot s id (Some (make_stack r)))
                        (set_current (ord (set_slot s id (Some (make_stack r)))) id))
               (set_host_ctx (set_current (ord (set_slot s id (Some (make_stack r)))) id)
                  (Run Host (Resume id K1)))).
  assert (H1 : step s (Run Host (three_resumes id k)) = Ok (sa, Entry)).
  { cbn [step three_resumes]. unfold resume. rewrite Hcur, Hs, Hfin, Hstack. reflexivity. }
  assert (Hsa : slot sa id = Some (Some (make_stack r))).
  { subst sa. table_lookup Hrange. reflexivity. }
  assert (H2 : step sa Entry = Ok (sa, Run body (Yield Return))).
  { cbn [step]. unfold entry_begin.
    change (current (ord sa)) with id. rewrite Hsa.
    cbn [make_stack self func]. now rewrite Hfunc. }
  (* the body yields *)
  set (r1 := set_ctx (make_stack r) (Run body Return)).
  set (s1 := set_slot (set_ord sa (set_current (ord sa) 0)) id (Some r1)).
  assert (H3 : step sa (Run body (Yield Return)) = Ok (s1, Run Host (Resume id K1))).
  { cbn [step]. unfold yield.
    change (current (ord sa)) with id. rewrite Hsa.
    cbn [on_stack body make_stack self stack]. rewrite Nat.eqb_refl. reflexivity. }
  assert (Hs1 : slot s1 id = Some (Some r1)).
  { subst s1 sa. table_lookup Hrange. reflexivity. }
  (* second resume: the saved context runs and the body returns *)
  set (sb := set_ord (set_ord s1 (set_current (ord s1) id))
               (set_host_ctx (set_current (ord s1) id) (Run Host (Resume id K2)))).
  assert (H4 : step s1 (Run Host (Resume id K1)) = Ok (sb, Run body Return)).
  { cbn [step]. unfold resume.
    change (current (ord s1)) with 0. rewrite Hs1.
    cbn [r1 set_ctx make_stack finished stack ctx negb Z.eqb]. rewrite Hfin. reflexivity. }
  set (r2 := set_finished r1).
  set (s2 := set_ord sb
               (set_indexes (set_current (set_routines (ord sb)
                  (write_finished (self r) (routines (ord sb)))) 0)
                  (indexes (ord sb) ++ [id]))).
  assert (H5 : step sb (Run body Return) = Ok (s2, Run Host (Resume id K2))).
  { reflexivity. }
  assert (Hs2 : slot s2 id = Some (Some r2)).
  { unfold slot. cbn [s2 ord set_ord routines set_indexes set_current set_routines].
    rewrite slot_write_finished.
    change (slot sb id) with (slot s1 id). rewrite Hs1. cbn [option_map].
    change (self r1) with (self r). now rewrite Nat.eqb_refl. }
  (* third resume *)
  assert (H6 : step s2 (Run Host (Resume id K2)) = Ok (s2, Run Host (k 0 0 (-2)))).
  { cbn [step]. unfold resume. change (current (ord s2)) with 0. rewrite Hs2. reflexivity. }
  exists s1, s2, r1, r2.
  assert (R3 : run 3 s (Run Host (three_resumes id k)) = Ok (s1, Run Host (Resume id K1))).
  { cbn [run]. rewrite H1. cbn [obind]. rewrite H2. cbn [obind]. rewrite H3. reflexivity. }
  assert (R5 : run 5 s (Run Host (three_resumes id k)) = Ok (s2, Run Host (Resume id K2))).
  { cbn [run]. rewrite H1. cbn [obind]. rewrite H2. cbn [obind]. rewrite H3. cbn [obind].
    rewrite H4. cbn [obind]. rewrite H5. reflexivity. }
  assert (R6 : run 6 s (Run Host (three_resumes id k)) = Ok (s2, Run Host (k 0 0 (-2)))).
  { cbn [run]. rewrite H1. cbn [obind]. rewrite H2. cbn [obind]. rewrite H3. cbn [obind].
    rewrite H4. cbn [obind]. rewrite H5. cbn [obind]. rewrite H6. reflexivity. }
  repeat split; try assumption; try reflexivity.
Qed.

(** C5. The completion flag of a routine is set by one step only, the end
    of [entry] after the body has returned, and no step clears it: a slot
    that holds a finished routine holds it, finished, after any step, or has
    been emptied by [destroy]. Control enters a routine only from the host
    context and only if the routine has not finished. For a routine whose
    body yields once and returns, the first [resume] returns 0 with the
    routine suspended at the yield, the second returns 0 with the flag set,
    the third returns -2 and changes nothing. *)
Theorem completion_flag {T} :
  (forall (s s' : state T) (c c' : context T) (id : routine_t),
     step s c = Ok (s', c') ->
     (forall r, slot s id = Some (Some r) -> finished r = true ->
        slot s' id = Some None \/
        exists r', slot s' id = Some (Some r') /\ finished r' = true /\
                   self r' = self r /\ func r' = func r) /\
     (forall r', slot s' id = Some (Some r') -> finished r' = true ->
        exists r, slot s id = Some (Some r) /\
          (finished r = true \/
           exists id0, c = Run (Body id0 (self r)) Return /\ r' = set_finished r)) /\
     (current (ord s') <> current (ord s) -> current (ord s') <> 0 ->
        current (ord s) = 0 /\
        exists r, slot s (current (ord s')) = Some (Some r) /\ finished r = false)) /\
  (forall (s : state T) (id : routine_t) (r : Routine T) (k : Z -> Z -> Z -> code T),
     current (ord s) = 0 ->
     slot s id = Some (Some r) ->
     func r = Yield Return -> stack r = false -> finished r = false ->
     exists s1 s2 r1 r2,
       run 3 s (Run Host (three_resumes id k)) =
         Ok (s1, Run Host (Resume id (fun r2 => Resume id (fun r3 => k 0 r2 r3)))) /\
       current (ord s1) = 0 /\ slot s1 id = Some (Some r1) /\ finished r1 = false /\
       ctx r1 = Some (Run (Body id (self r)) Return) /\
       run 5 s (Run Host (three_resumes id k)) =
         Ok (s2, Run Host (Resume id (fun r3 => k 0 0 r3))) /\
       current (ord s2) = 0 /\ slot s2 id = Some (Some r2) /\ finished r2 = true /\
       self r2 = self r /\
       run 6 s (Run Host (three_resumes id k)) = Ok (s2, Run Host (k 0 0 (-2)))).
Proof.
  split; [|intros; now apply yield_once_then_return].
  intros s s' c c' id Hstep.
  pose proof (step_slot s c s' c' id Hstep) as Hslot.
  split; [|split].
  - intros r Hs Hf. rewrite Hs in Hslot.
    inversion Hslot as [p Hp|p r0 Hp|r0|r0 Hnf|r0 c0|r0 id0 Hc]; subst.
    + right. exists r. auto.
    + destruct Hp; discriminate.
    + now left.
    + congruence.
    + right. eexists. split; [reflexivity|]. auto.
    + right. eexists. split; [reflexivity|]. auto.
  - intros r' Hs' Hf'. rewrite Hs' in Hslot.
    inversion Hslot as [p Hp|p r0 Hp Hnf|r0|r0 Hnf|r0 c0|r0 id0 Hc]; subst.
    + exists r'. auto.
    + congruence.
    + exists r0. split; [reflexivity|]. left. exact Hf'.
    + exists r0. split; [reflexivity|]. left. exact Hf'.
    + exists r0. split; [reflexivity|]. right. exists id0. auto.
  - intros Hch Hnz. destruct (step_current s c s' c' Hstep) as [H|[H|H]]; try contradiction.
    exact H.
Qed.

Lemma completion_flag_witness :
  exists s2,
    run 6 yields_once_created
      (Run Host (three_resumes 1 (fun r1 r2 r3 => Size 0%nat (fun _ => Return)))) =
      Ok (s2, Run Host (Size 0%nat (fun _ => Return))) /\
    exists r2, slot s2 1 = Some (Some r2) /\ finished r2 = true.
Proof.
  destruct (@completion_flag Z) as [_ H].
  destruct (H yields_once_created 1
              (mkRoutine 0%nat (Yield Return) false false None)
              (fun r1 r2 r3 => Size 0%nat (fun _ => Return)))
    as (s1 & s2 & r1 & r2 & _ & _ & _ & _ & _ & _ & _ & Hs2 & Hf2 & _ & Hrun);
    [reflexivity|reflexivity|reflexivity|reflexivity|reflexivity|].
  exists s2. split; [exact Hrun|]. exists r2. auto.
Defined.

(** ** await *)

Section Await.
Context {T : Type} {A B : Type}.
Variables (f : A -> B) (a : A) (k : B -> code T).

Lemma await_loop_host fr (polls : nat) : forall s : state T,
  current (ord s) = 0 ->
  run (S polls) s (Run fr (AwaitLoop polls f a k)) = Ok (s, Run fr (k (f a))).
Proof.
  induction polls as [|n IH]; intros s Hcur.
  - reflexivity.
  - change (run (S (S n)) s (Run fr (AwaitLoop (S n) f a k)))
      with (obind (await_loop fr (S n) f a k s)
              (fun '(s1, c1) => run (S n) s1 c1)).
    unfold await_loop. rewrite Hcur. cbn [Z.eqb negb obind]. now apply IH.
Qed.

Lemma await_loop_routine id (K : code T) (polls : nat) :
  forall (m : nat) (s : state T) (r : Routine T),
  (polls <= m)%nat ->
  current (ord s) = id -> id <> 0 ->
  slot s id = Some (Some r) -> stack r = true -> finished r = false ->
  host_ctx (ord s) = Some (Run Host (resume_times m id K)) ->
  exists s' r',
    run (S (2 * polls)) s (Run (Body id (self r)) (AwaitLoop polls f a k)) =
      Ok (s', Run (Body id (self r)) (k (f a))) /\
    asyncs s' = asyncs s /\ chans s' = chans s /\
    current (ord s') = id /\
    slot s' id = Some (Some r') /\ self r' = self r /\ finished r' = false /\
    host_ctx (ord s') = Some (Run Host (resume_times (m - polls) id K)).
Proof.
  induction polls as [|n IH]; intros m s r Hm Hcur Hid Hs Hst Hf Hh.
  - exists s, r. rewrite Nat.sub_0_r. repeat split; auto.
  - destruct m as [|m']; [lia|].
    assert (Hrange : 0 <= slot_index id < Z.of_nat (length (routines (ord s))))
      by (eapply nth_Z_Some_range; exact Hs).
    set (body := Body id (self r)).
    set (r1 := set_ctx r (Run body (AwaitLoop n f a k))).
    set (s1 := set_slot (set_ord s (set_current (ord s) 0)) id (Some r1)).
    assert (H1 : step s (Run body (AwaitLoop (S n) f a k)) =
                 Ok (s1, Run Host (resume_times (S m') id K))).
    { cbn [step]. unfold await_loop.
      destruct (Z.eqb_spec (current (ord s)) 0) as [H0|_]; [congruence|]. cbn [negb].
      unfold yield. rewrite Hcur, Hs. cbn [on_stack body]. rewrite Nat.eqb_refl, Hst.
      cbn [andb negb]. rewrite Hh. reflexivity. }
    assert (Hs1 : slot s1 id = Some (Some r1)).
    { subst s1. table_lookup Hrange. reflexivity. }
    set (s2 := set_ord (set_ord s1 (set_current (ord s1) id))
                 (set_host_ctx (set_current (ord s1) id)
                    (Run Host (resume_times m' id K)))).
    assert (H2 : step s1 (Run Host (resume_times (S m') id K)) =
                 Ok (s2, Run body (AwaitLoop n f a k))).
    { cbn [step resume_times]. unfold resume.
      change (current (ord s1)) with 0. rewrite Hs1.
      cbn [r1 set_ctx finished stack ctx Z.eqb negb]. rewrite Hf, Hst. reflexivity. }
    destruct (IH m' s2 r1) as (s' & r' & Hrun & Ha & Hc & Hcur' & Hs' & Hself & Hf' & Hh');
      [lia|reflexivity|exact Hid|exact Hs1|exact Hst|exact Hf|reflexivity|].
    exists s', r'. split.
    + replace (S (2 * S n)) with (S (S (S (2 * n)))) by lia.
      change (run (S (S (S (2 * n)))) s (Run body (AwaitLoop (S n) f a k)))
        with (obind (step s (Run body (AwaitLoop (S n) f a k)))
                (fun '(sx, cx) => obind (step sx cx)
                   (fun '(sy, cy) => run (S (2 * n)) sy cy))).
      rewrite H1. cbn [obind]. rewrite H2. cbn [obind]. exact Hrun.
    + repeat split; auto.
Qed.

End Await.

(** C7. [await] launches the function once and gives its caller the value
    [f a], whatever it is, a result or a failure, after any number [polls]
    of unsuccessful polls. Called from the host context it polls again at
    once; called from inside a routine it yields after each unsuccessful
    poll, and with a host that resumes the routine the call returns [f a]
    in the routine. *)
Theorem await_returns_result {T} {A B : Type} (f : A -> B) (a : A) (k : B -> code T)
    (polls : nat) :
  (forall (s : state T) fr,
     current (ord s) = 0 ->
     run (S (S polls)) s (Run fr (Await polls f a k)) =
       Ok (launch s, Run fr (k (f a))) /\
     asyncs (launch s) = S (asyncs s)) /\
  (forall (s : state T) id r m K,
     (polls <= m)%nat ->
     current (ord s) = id -> id <> 0 ->
     slot s id = Some (Some r) -> stack r = true -> finished r = false ->
     host_ctx (ord s) = Some (Run Host (resume_times m id K)) ->
     exists s',
       run (S (S (2 * polls))) s (Run (Body id (self r)) (Await polls f a k)) =
         Ok (s', Run (Body id (self r)) (k (f a))) /\
       asyncs s' = S (asyncs s) /\
       current (ord s') = id /\
       host_ctx (ord s') = Some (Run Host (resume_times (m - polls) id K))).
Proof.
  split.
  - intros s fr Hcur. split; [|reflexivity].
    change (run (S (S polls)) s (Run fr (Await polls f a k)))
      with (run (S polls) (launch s) (Run fr (AwaitLoop polls f a k))).
    now apply await_loop_host.
  - intros s id r m K Hm Hcur Hid Hs Hst Hf Hh.
    destruct (await_loop_routine f a k id K polls m (launch s) r)
      as (s' & r' & Hrun & Ha & _ & Hcur' & _ & _ & _ & Hh'); auto.
    exists s'. split; [|auto].
    change (run (S (S (2 * polls))) s (Run (Body id (self r)) (Await polls f a k)))
      with (run (S (2 * polls)) (launch s)
              (Run (Body id (self r)) (AwaitLoop polls f a k))).
    exact Hrun.
Qed.

Lemma awaiting_reachable :
  run 3 init (Run Host await_host) = Ok (awaiting, Run (Body 1 0%nat) await_body).
Proof. vm_compute. reflexivity. Qed.

Lemma await_returns_result_witness :
  run 4 (@init Z) (Run Host await_body) = Ok (launch init, Run Host (on_outcome (inr 5))) /\
  exists s',
    run 6 awaiting (Run (Body 1 0%nat) await_body) =
      Ok (s', Run (Body 1 0%nat) (on_outcome (inr 5))) /\
    asyncs s' = 1%nat /\
    host_ctx (ord s') = Some (Run Host Return).
Proof.
  split.
  - apply (await_returns_result failing 5 on_outcome 2). reflexivity.
  - destruct (await_returns_result (T := Z) failing 5 on_outcome 2) as [_ H].
    destruct (H awaiting 1 (mkRoutine 0%nat await_body true false (Some Entry)) 2%nat Return)
      as (s' & Hrun & Ha & _ & Hh);
      [lia|reflexivity|lia|reflexivity|reflexivity|reflexivity|reflexivity|].
    exists s'. split; [exact Hrun|]. split; [exact Ha|exact Hh].
Defined.

(** ** The theorems at concrete states *)

Lemma finished_and_empty_reachable :
  run 6 init (Run Host finish_and_destroy) = Ok (finished_and_empty, Run Host Return).
Proof. vm_compute. reflexivity. Qed.

Lemma body_returning_reachable :
  run 3 init (Run Host create_after_completion) =
    Ok (body_returning, Run (Body 1 0%nat) Return).
Proof. vm_compute. reflexivity. Qed.

Lemma resume_failure_indicators_witness :
  resume 2 (fun z => Run Host (Destroy z Return)) finished_and_empty =
    Ok (finished_and_empty, Run Host (Destroy (-1) Return)) /\
  resume 1 (fun z => Run Host (Destroy z Return)) finished_and_empty =
    Ok (finished_and_empty, Run Host (Destroy (-2) Return)).
Proof.
  destruct (resume_failure_indicators finished_and_empty 2
              (fun z => Run Host (Destroy z Return))) as (H1 & _); [reflexivity|].
  destruct (resume_failure_indicators finished_and_empty 1
              (fun z => Run Host (Destroy z Return))) as (_ & H2 & _); [reflexivity|].
  split.
  - apply H1. reflexivity.
  - apply (H2 (mkRoutine 0%nat Return true true (Some Entry))); reflexivity.
Defined.

Lemma table_index_unchecked_witness :
  slot finished_and_empty 3 = None /\
  destroy 3 finished_and_empty = Undefined /\
  (forall ret, resume 0 ret finished_and_empty = Undefined).
Proof.
  destruct (table_index_unchecked finished_and_empty 3) as (H1 & H2 & _);
    [unfold is_routine_t, UINT_MAX1; lia|reflexivity|].
  destruct (table_index_unchecked finished_and_empty 0) as (_ & H3 & _);
    [unfold is_routine_t, UINT_MAX1; lia|reflexivity|].
  split; [apply H1; simpl; lia|].
  split; [apply H2; right; simpl; lia|].
  apply H3; [now left|reflexivity].
Defined.

Lemma entry_end_recycles_occupied_slot_witness :
  exists s',
    step body_returning (Run (Body 1 0%nat) Return) =
      Ok (s', Run Host (Create Return (fun _ => Return))) /\
    In 1 (indexes (ord s')) /\ slot s' 1 <> Some None.
Proof.
  destruct (entry_end_recycles_occupied_slot body_returning 1
              (mkRoutine 0%nat Return true false (Some Entry))
              (Run Host (Create Return (fun _ => Return))))
    as (s' & Hstep & _ & _ & _ & _ & Hin & Hne); [reflexivity|reflexivity|].
  exists s'. auto.
Defined.

Lemma create_ids_increase_witness :
  exists s',
    create_all [Return; Yield Return; Return] (@init Z) = Ok (s', [1; 2; 3]) /\
    length (routines (ord s')) = 3%nat.
Proof.
  destruct (create_ids_increase [Return; Yield Return; Return] (@init Z))
    as (s' & Hall & Hlen & _); [reflexivity|reflexivity|].
  exists s'. split; [exact Hall|exact Hlen].
Defined.

(** ** destroy and the reuse of identifiers *)

Section Destroy.
Context {T : Type}.
Implicit Types (s : state T) (id : routine_t) (r : Routine T).

Lemma slot_set_slot_other s id0 q id :
  slot_index id <> slot_index id0 -> slot (set_slot s id0 q) id = slot s id.
Proof.
  intros Hne. rewrite slot_set_slot.
  destruct (Z.eqb_spec (slot_index id0) (slot_index id)); [congruence|reflexivity].
Qed.

Lemma destroy_live s id r :
  slot s id = Some (Some r) ->
  destroy id s =
    Ok (set_ord (set_slot s id None)
          (set_indexes (ord (set_slot s id None)) (indexes (ord s) ++ [id]))).
Proof. intros Hs. unfold destroy. now rewrite Hs. Qed.

End Destroy.

Lemma destroy_effect {T} (s : state T) (id : routine_t) (r : Routine T) :
  slot s id = Some (Some r) ->
  exists s',
    destroy id s = Ok s' /\
    slot s' id = Some None /\
    indexes (ord s') = indexes (ord s) ++ [id] /\
    allocated s' = allocated s /\
    length (routines (ord s')) = length (routines (ord s)) /\
    (forall id', slot_index id' <> slot_index id -> slot s' id' = slot s id').
Proof.
  intros Hs. eexists. split; [apply (destroy_live s id r Hs)|].
  repeat split.
  - change (slot (set_ord ?a _) id) with (slot a id). eapply slot_set_slot_eq; eauto.
  - simpl. apply length_set_Z.
  - intros id' Hne. change (slot (set_ord ?a _) id') with (slot a id').
    now apply slot_set_slot_other.
Qed.

(** X1. [destroy] on an identifier whose slot holds a routine empties that
    slot, appends the identifier to the free-list and leaves [current], the
    size of the table and every other slot as they were. After it, a second
    [destroy] of the identifier fails its assertion and [resume] from the
    host context returns -1. *)
Theorem destroy_then_not_found {T} (s : state T) (id : routine_t) (r : Routine T) :
  slot s id = Some (Some r) ->
  exists s',
    destroy id s = Ok s' /\
    slot s' id = Some None /\
    indexes (ord s') = indexes (ord s) ++ [id] /\
    current (ord s') = current (ord s) /\
    length (routines (ord s')) = length (routines (ord s)) /\
    (forall id', slot_index id' <> slot_index id -> slot s' id' = slot s id') /\
    destroy id s' = AssertFail /\
    (current (ord s) = 0 -> forall ret, resume id ret s' = Ok (s', ret (-1))).
Proof.
  intros Hs. eexists. split; [apply (destroy_live s id r Hs)|].
  assert (Hs' : slot (set_ord (set_slot s id None)
                  (set_indexes (ord (set_slot s id None)) (indexes (ord s) ++ [id]))) id
                = Some None).
  { change (slot (set_ord ?a _) id) with (slot a id). eapply slot_set_slot_eq; eauto. }
  repeat split.
  - exact Hs'.
  - simpl. apply length_set_Z.
  - intros id' Hne. change (slot (set_ord ?a _) id') with (slot a id').
    now apply slot_set_slot_other.
  - unfold destroy. now rewrite Hs'.
  - intros Hcur ret. unfold resume. rewrite Hs'. simpl. now rewrite Hcur.
Qed.

Lemma destroy_then_not_found_witness :
  exists s',
    destroy 1 yields_once_created = Ok s' /\
    destroy 1 s' = AssertFail /\
    resume 1 (fun z => Run Host (Destroy z Return)) s' =
      Ok (s', Run Host (Destroy (-1) Return)).
Proof.
  destruct (destroy_then_not_found yields_once_created 1
              (mkRoutine 0%nat (Yield Return) false false None))
    as (s' & Hd & _ & _ & _ & _ & _ & Hd2 & Hr); [reflexivity|].
  exists s'. split; [exact Hd|]. split; [exact Hd2|]. apply Hr. reflexivity.
Defined.

(** X2. Destroyed identifiers are reissued oldest first. With an empty
    free-list and two routines in different slots, destroying [a] then [b]
    and creating two routines returns [a] then [b]; the new routines sit in
    those slots, not started and not finished, the free-list is empty again
    and the table has kept its size. *)
Theorem destroy_create_reuses {T} (s : state T) (a b : routine_t)
    (ra rb : Routine T) (f g : code T) :
  indexes (ord s) = [] ->
  slot s a = Some (Some ra) -> slot s b = Some (Some rb) ->
  slot_index a <> slot_index b ->
  exists s1 s2 s3 s4,
    destroy a s = Ok s1 /\ destroy b s1 = Ok s2 /\
    create f s2 = Ok (s3, a) /\ create g s3 = Ok (s4, b) /\
    slot s4 a = Some (Some (mkRoutine (allocated s) f false false None)) /\
    slot s4 b = Some (Some (mkRoutine (S (allocated s)) g false false None)) /\
    indexes (ord s4) = [] /\
    length (routines (ord s4)) = length (routines (ord s)).
Proof.
  intros Hix Ha Hb Hab.
  destruct (destroy_effect s a ra Ha)
    as (s1 & Hd1 & Hs1a & Hix1 & _ & Hlen1 & Hoth1).
  assert (Hs1b : slot s1 b = Some (Some rb)) by (rewrite Hoth1; auto).
  destruct (destroy_effect s1 b rb Hs1b)
    as (s2 & Hd2 & Hs2b & Hix2 & _ & Hlen2 & Hoth2).
  assert (Hs2a : slot s2 a = Some None) by (rewrite Hoth2; auto).
  assert (Hal2 : allocated s2 = allocated s).
  { rewrite (destroy_live s1 b rb Hs1b) in Hd2. injection Hd2 as <-.
    rewrite (destroy_live s a ra Ha) in Hd1. injection Hd1 as <-. reflexivity. }
  rewrite Hix1, Hix in Hix2. cbn [app] in Hix2.
  (* first create: takes a *)
  set (na := mkRoutine (allocated s2) f false false None).
  set (s2' := set_ord (mkState (ord s2) (chans s2) (asyncs s2) (S (allocated s2)))
                (set_indexes (ord s2) [b])).
  set (s3 := set_slot s2' a (Some na)).
  assert (Hc3 : create f s2 = Ok (s3, a)).
  { unfold create. rewrite Hix2.
    change (slot (set_ord _ (set_indexes (ord s2) [b])) a) with (slot s2 a).
    rewrite Hs2a. reflexivity. }
  assert (Hs3a : slot s3 a = Some (Some na)).
  { subst s3. apply (slot_set_slot_eq s2' a None). exact Hs2a. }
  assert (Hs3b : slot s3 b = Some None).
  { subst s3. rewrite slot_set_slot_other by auto. exact Hs2b. }
  (* second create: takes b *)
  set (nb := mkRoutine (allocated s3) g false false None).
  set (s3' := set_ord (mkState (ord s3) (chans s3) (asyncs s3) (S (allocated s3)))
                (set_indexes (ord s3) [])).
  set (s4 := set_slot s3' b (Some nb)).
  assert (Hc4 : create g s3 = Ok (s4, b)).
  { unfold create. change (indexes (ord s3)) with [b]. cbv beta iota zeta.
    change (slot (set_ord _ (set_indexes (ord s3) [])) b) with (slot s3 b).
    rewrite Hs3b. reflexivity. }
  exists s1, s2, s3, s4. repeat split; try assumption.
  - subst s4. rewrite slot_set_slot_other by auto.
    change (slot s3' a) with (slot s3 a). rewrite Hs3a. subst na. now rewrite Hal2.
  - subst s4. rewrite (slot_set_slot_eq s3' b None) by exact Hs3b.
    subst nb. change (allocated s3) with (S (allocated s2)). now rewrite Hal2.
  - subst s4 s3' s3 s2'. simpl. rewrite !length_set_Z. congruence.
Qed.

Lemma destroy_create_reuses_witness :
  exists s1 s2 s3 s4,
    destroy 1 two_created = Ok s1 /\ destroy 2 s1 = Ok s2 /\
    create (Yield Return) s2 = Ok (s3, 1) /\ create Return s3 = Ok (s4, 2) /\
    indexes (ord s4) = [].
Proof.
  destruct (destroy_create_reuses two_created 1 2
              (mkRoutine 0%nat Return false false None)
              (mkRoutine 1%nat (Yield Return) false false None)
              (Yield Return) Return)
    as (s1 & s2 & s3 & s4 & H1 & H2 & H3 & H4 & _ & _ & H5 & _);
    [reflexivity|reflexivity|reflexivity|vm_compute; discriminate|].
  exists s1, s2, s3, s4. auto.
Defined.

(** ** The routine behind a new identifier *)

Lemma create_slot {T} (f : code T) (s s' : state T) (id : routine_t) :
  create f s = Ok (s', id) ->
  Z.of_nat (length (routines (ord s))) + 1 < UINT_MAX1 ->
  slot s' id = Some (Some (mkRoutine (allocated s) f false false None)) /\
  (forall id' r, slot s id' = Some (Some r) -> slot s' id' = Some (Some r)).
Proof.
  unfold create. intros H Hlen.
  destruct (indexes (ord s)) as [|i rest] eqn:Hix.
  - injection H as <- <-. split.
    + unfold slot. simpl. rewrite length_app. simpl length.
      unfold to_routine_t. rewrite Z.mod_small by (unfold UINT_MAX1 in *; lia).
      rewrite slot_index_pos by lia.
      replace (Z.of_nat (length (routines (ord s)) + 1) - 1)
        with (Z.of_nat (length (routines (ord s)))) by lia.
      apply nth_Z_app_last.
    + intros id' r Hs. unfold slot in *. simpl. rewrite nth_Z_app_l; [exact Hs|].
      apply nth_Z_Some_range in Hs. lia.
  - match type of H with
    | match slot ?s2 i with _ => _ end = _ =>
        change (slot s2 i) with (slot s i) in H;
        destruct (slot s i) as [[r0|]|] eqn:Hs; try discriminate H
    end.
    injection H as <- <-. split.
    + eapply slot_set_slot_eq. exact Hs.
    + intros id' r Hs'. rewrite slot_set_slot.
      change (slot (set_ord _ _) i) with (slot s i).
      change (slot (set_ord _ _) id') with (slot s id').
      destruct (Z.eqb_spec (slot_index i) (slot_index id')) as [He|Hne]; [|exact Hs'].
      rewrite (slot_same_index s _ _ He) in Hs. congruence.
Qed.

(** X3. The identifier [create] returns denotes the new routine: its slot
    holds a routine with the body given, without a stack and not finished.
    Every routine that was in the table is still in its slot, unchanged, and
    [current] and the channels are as before. The first [resume] of the
    identifier from the host context returns nothing yet: control is in the
    body, at its first call, with [current] equal to the identifier and the
    host saved as the context to return to. The table is assumed to stay
    within the range of [routine_t]. *)
Theorem create_then_resume {T} (f : code T) (s s' : state T) (id : routine_t) :
  create f s = Ok (s', id) ->
  Z.of_nat (length (routines (ord s))) + 1 < UINT_MAX1 ->
  slot s' id = Some (Some (mkRoutine (allocated s) f false false None)) /\
  (forall id' r, slot s id' = Some (Some r) -> slot s' id' = Some (Some r)) /\
  current (ord s') = current (ord s) /\
  chans s' = chans s /\
  (current (ord s) = 0 -> forall k,
     exists s'',
       run 2 s' (Run Host (Resume id k)) = Ok (s'', Run (Body id (allocated s)) f) /\
       current (ord s'') = id /\
       host_ctx (ord s'') = Some (Run Host (k 0))).
Proof.
  intros Hc Hlen.
  destruct (create_slot f s s' id Hc Hlen) as [Hnew Hold].
  pose proof (create_current _ _ _ _ Hc) as Hcur.
  pose proof (create_chans _ _ _ _ Hc) as Hch.
  repeat split; try assumption.
  intros H0 k.
  assert (Hrange : 0 <= slot_index id < Z.of_nat (length (routines (ord s'))))
    by (eapply nth_Z_Some_range; exact Hnew).
  set (fresh := mkRoutine (allocated s) f false false None) in *.
  set (s1 := set_slot s' id (Some (make_stack fresh))).
  set (s2 := set_ord (set_ord s1 (set_current (ord s1) id))
               (set_host_ctx (set_current (ord s1) id) (Run Host (k 0)))).
  assert (H1 : step s' (Run Host (Resume id k)) = Ok (s2, Entry)).
  { cbn [step]. unfold resume. rewrite Hcur, H0, Hnew. reflexivity. }
  assert (Hs2 : slot s2 id = Some (Some (make_stack fresh))).
  { subst s2 s1. table_lookup Hrange. reflexivity. }
  exists s2. split; [|split; reflexivity].
  cbn [run]. rewrite H1. cbn [obind step]. unfold entry_begin.
  change (current (ord s2)) with id. rewrite Hs2. reflexivity.
Qed.

Lemma create_then_resume_witness :
  exists s' s'',
    create (Yield Return) two_created = Ok (s', 3) /\
    run 2 s' (Run Host (Resume 3 (fun _ => Return))) =
      Ok (s'', Run (Body 3 2%nat) (Yield Return)) /\
    current (ord s'') = 3.
Proof.
  eexists.
  destruct (create_then_resume (Yield Return) two_created _ 3 eq_refl)
    as (_ & _ & _ & _ & H); [reflexivity|].
  destruct (H eq_refl (fun _ => Return)) as (s'' & Hrun & Hcur & _).
  exists s''. split; [reflexivity|]. split; [exact Hrun|exact Hcur].
Defined.

(** ** The table over a run *)

Section TableGrowth.
Context {T : Type}.
Implicit Types (s : state T).

(** Every step leaves the scheduler alone or is one call of [create],
    [destroy], [resume], [yield] or the end of [entry], possibly after a
    change to a channel. *)
Lemma step_scheduler s c s' c' :
  step s c = Ok (s', c') ->
  ord s' = ord s \/
  (exists f id, create f s = Ok (s', id)) \/
  (exists id, destroy id s = Ok s') \/
  (exists s0 id ret, ord s0 = ord s /\ resume id ret s0 = Ok (s', c')) \/
  (exists s0 fr k, ord s0 = ord s /\ yield fr k s0 = Ok (s', c')) \/
  (exists id a, entry_end id a s = Ok (s', c')).
Proof.
  intros H. destruct c as [|fr body].
  - cbn [step] in H. unfold entry_begin in H. invert_ok H. now left.
  - destruct body; cbn [step] in H.
    + destruct fr; [injection H as <- <-; now left|].
      do 5 right. eauto.
    + destruct (create body s) as [[s1 id1]| |] eqn:Hc; try discriminate H.
      cbn [obind] in H. injection H as <- <-. right. left. eauto.
    + destruct (destroy id s) as [s1| |] eqn:Hd; try discriminate H.
      cbn [obind] in H. injection H as <- <-. do 2 right. left. eauto.
    + do 3 right. left. exists s. eauto.
    + do 4 right. left. exists s. eauto.
    + injection H as <- <-. now left.
    + injection H as <- <-. now left.
    + unfold await_loop in H. destruct polls.
      * injection H as <- <-. now left.
      * destruct (negb (current (ord s) =? 0)).
        -- do 4 right. left. exists s. eauto.
        -- injection H as <- <-. now left.
    + injection H as <- <-. now left.
    + unfold push in H.
      match type of H with
      | (if ?b then _ else _) = _ => destruct b
      end.
      * do 3 right. left. eexists. do 2 eexists. split; [|exact H]. reflexivity.
      * injection H as <- <-. now left.
    + unfold pop, pop_loop in H.
      match type of H with
      | match list_ (chan ?s1 c) with _ => _ end = _ =>
          destruct (list_ (chan s1 c));
          [do 4 right; left; exists s1; do 2 eexists; split; [|exact H];
           destruct (taker_ (chan s c) =? 0); reflexivity
          |injection H as <- <-; left; destruct (taker_ (chan s c) =? 0); reflexivity]
      end.
    + unfold pop_loop in H. destruct (list_ (chan s c)).
      * do 4 right. left. exists s. eauto.
      * injection H as <- <-. now left.
    + injection H as <- <-. now left.
    + unfold touch in H.
      match type of H with
      | (if ?b then _ else _) = _ => destruct b
      end.
      * do 3 right. left. exists s. eauto.
      * injection H as <- <-. now left.
    + injection H as <- <-. now left.
    + injection H as <- <-. now left.
Qed.

Lemma create_table_size f s s' id :
  create f s = Ok (s', id) ->
  (table_size s <= table_size s' <= S (table_size s))%nat.
Proof.
  unfold create, table_size. intros H. invert_ok H; simpl.
  - rewrite length_app. simpl. lia.
  - rewrite length_set_Z. lia.
Qed.

Lemma destroy_table_size id s s' :
  destroy id s = Ok s' -> table_size s' = table_size s.
Proof.
  unfold destroy, table_size. intros H. repeat break_match H; try discriminate H.
  injection H as <-. simpl. apply length_set_Z.
Qed.

Lemma resume_table_size id ret s s' c' :
  resume id ret s = Ok (s', c') -> table_size s' = table_size s.
Proof.
  unfold resume, table_size. intros H. invert_ok H; simpl; try reflexivity.
  apply length_set_Z.
Qed.

Lemma yield_table_size fr k s s' c' :
  yield fr k s = Ok (s', c') -> table_size s' = table_size s.
Proof.
  unfold yield, table_size. intros H. invert_ok H. simpl. apply length_set_Z.
Qed.

Lemma entry_end_table_size id a s s' c' :
  entry_end id a s = Ok (s', c') -> table_size s' = table_size s.
Proof.
  unfold entry_end, table_size. intros H. invert_ok H. simpl.
  unfold write_finished. apply length_map.
Qed.

Lemma step_table_size s c s' c' :
  step s c = Ok (s', c') ->
  (table_size s <= table_size s' <= S (table_size s))%nat.
Proof.
  intros H.
  destruct (step_scheduler s c s' c' H)
    as [He|[(f & id & Hc)|[(id & Hd)|[(s0 & id & ret & H0 & Hr)
       |[(s0 & fr & k & H0 & Hy)|(id & a & He)]]]]].
  - unfold table_size. rewrite He. lia.
  - now apply create_table_size in Hc.
  - apply destroy_table_size in Hd. lia.
  - apply resume_table_size in Hr. unfold table_size in *. rewrite H0 in Hr. lia.
  - apply yield_table_size in Hy. unfold table_size in *. rewrite H0 in Hy. lia.
  - apply entry_end_table_size in He. lia.
Qed.

Lemma slot_in_table s id : slot s id <> None <-> slot_index id < Z.of_nat (table_size s).
Proof.
  unfold slot, table_size. pose proof (slot_index_range id) as Hr.
  rewrite nth_Z_None. lia.
Qed.

End TableGrowth.

(** X4. The routine table never shrinks. Over any run of [n] steps its size
    does not decrease and grows by at most [n], and an identifier whose
    index [id - 1] is inside the table at the start is inside the table at
    the end: a lookup that was in range stays in range. *)
Theorem table_never_shrinks {T} (n : nat) (s s' : state T) (c c' : context T) :
  run n s c = Ok (s', c') ->
  (table_size s <= table_size s' <= table_size s + n)%nat /\
  (forall id, slot s id <> None -> slot s' id <> None).
Proof.
  intros Hrun.
  assert (Hsize : (table_size s <= table_size s' <= table_size s + n)%nat).
  { revert s c Hrun. induction n as [|n IH]; intros s c Hrun.
    - injection Hrun as <- <-. lia.
    - cbn [run] in Hrun.
      destruct (step s c) as [[s1 c1]| |] eqn:Hstep; try discriminate Hrun.
      cbn [obind] in Hrun. apply step_table_size in Hstep. apply IH in Hrun. lia. }
  split; [exact Hsize|].
  intros id. rewrite !slot_in_table. lia.
Qed.

Lemma table_never_shrinks_witness :
  (table_size two_created <= table_size finished_and_empty)%nat /\
  slot finished_and_empty 2 <> None.
Proof.
  destruct (table_never_shrinks 4 two_created finished_and_empty
              (Run Host (Resume 1 (fun _ => Destroy 2 Return)))
              (Run Host Return)) as [[H _] Hin]; [vm_compute; reflexivity|].
  split; [exact H|]. apply Hin. discriminate.
Defined.

(** ** yield and the next resume *)

(** X5. A routine that yields and is resumed continues at the code after
    its [yield]. The routine [id] runs on its own stack and calls [yield];
    control goes to the saved host context with [current] 0. When the host
    then calls [resume id], the routine runs the code that follows the
    yield, [current] is [id] again and the host is saved at the return of
    [resume] with value 0. Channels, free-list and the other slots are as
    before the yield. *)
Theorem yield_then_resume {T} (s : state T) (id : routine_t) (r : Routine T)
    (k : code T) (kh : Z -> code T) :
  current (ord s) = id ->
  slot s id = Some (Some r) ->
  stack r = true -> finished r = false ->
  host_ctx (ord s) = Some (Run Host (Resume id kh)) ->
  exists s1 s2,
    step s (Run (Body id (self r)) (Yield k)) = Ok (s1, Run Host (Resume id kh)) /\
    current (ord s1) = 0 /\
    step s1 (Run Host (Resume id kh)) = Ok (s2, Run (Body id (self r)) k) /\
    current (ord s2) = id /\
    host_ctx (ord s2) = Some (Run Host (kh 0)) /\
    slot s2 id = Some (Some (set_ctx r (Run (Body id (self r)) k))) /\
    (forall id', slot_index id' <> slot_index id -> slot s2 id' = slot s id') /\
    chans s2 = chans s /\ indexes (ord s2) = indexes (ord s).
Proof.
  intros Hcur Hs Hst Hf Hh.
  assert (Hrange : 0 <= slot_index id < Z.of_nat (length (routines (ord s))))
    by (eapply nth_Z_Some_range; exact Hs).
  set (body := Body id (self r)).
  set (r1 := set_ctx r (Run body k)).
  set (s1 := set_slot (set_ord s (set_current (ord s) 0)) id (Some r1)).
  set (s2 := set_ord (set_ord s1 (set_current (ord s1) id))
               (set_host_ctx (set_current (ord s1) id) (Run Host (kh 0)))).
  assert (H1 : step s (Run body (Yield k)) = Ok (s1, Run Host (Resume id kh))).
  { cbn [step]. unfold yield. rewrite Hcur, Hs. cbn [on_stack body].
    rewrite Nat.eqb_refl, Hst. cbn [andb negb]. rewrite Hh. reflexivity. }
  assert (Hs1 : slot s1 id = Some (Some r1)).
  { subst s1. table_lookup Hrange. reflexivity. }
  assert (H2 : step s1 (Run Host (Resume id kh)) = Ok (s2, Run body k)).
  { cbn [step]. unfold resume. change (current (ord s1)) with 0. rewrite Hs1.
    cbn [r1 set_ctx finished stack ctx Z.eqb negb]. rewrite Hf, Hst. reflexivity. }
  exists s1, s2. repeat split; try assumption.
  intros id' Hne. change (slot s2 id') with (slot s1 id'). subst s1.
  now rewrite slot_set_slot_other.
Qed.

Lemma yield_then_resume_witness :
  exists s1 s2,
    step awaiting (Run (Body 1 0%nat) (Yield Return)) =
      Ok (s1, Run Host (resume_times 2 1 Return)) /\
    step s1 (Run Host (resume_times 2 1 Return)) = Ok (s2, Run (Body 1 0%nat) Return) /\
    current (ord s2) = 1.
Proof.
  destruct (yield_then_resume awaiting 1
              (mkRoutine 0%nat await_body true false (Some Entry))
              Return (fun _ => resume_times 1 1 Return))
    as (s1 & s2 & H1 & _ & H2 & Hc & _);
    [reflexivity|reflexivity|reflexivity|reflexivity|reflexivity|].
  exists s1, s2. auto.
Defined.

(** ** pop on an empty channel *)

(** X6. A routine that calls [pop] on an empty channel is suspended: the
    consumer of the channel becomes the routine if none was bound, and is
    kept otherwise; control goes to the saved host context with [current]
    0; the routine is saved inside [pop], so that its next [resume] tests
    the queue again; the queue is still empty. *)
Theorem pop_empty_suspends {T} (s : state T) (c : nat) (k : T -> code T)
    (id : routine_t) (r : Routine T) (h : context T) :
  list_ (chan s c) = [] ->
  current (ord s) = id ->
  slot s id = Some (Some r) -> stack r = true ->
  host_ctx (ord s) = Some h ->
  exists s',
    step s (Run (Body id (self r)) (Pop c k)) = Ok (s', h) /\
    current (ord s') = 0 /\
    slot s' id = Some (Some (set_ctx r (Run (Body id (self r)) (PopLoop c k)))) /\
    list_ (chan s' c) = [] /\
    taker_ (chan s' c) = (if taker_ (chan s c) =? 0 then id else taker_ (chan s c)).
Proof.
  intros Hq Hcur Hs Hst Hh.
  set (s0 := if taker_ (chan s c) =? 0
             then set_chan s c (mkChannel (list_ (chan s c)) (current (ord s)))
             else s).
  set (saved := set_ctx r (Run (Body id (self r)) (PopLoop c k))).
  assert (Hord : ord s0 = ord s)
    by (subst s0; destruct (taker_ (chan s c) =? 0); reflexivity).
  assert (Hq0 : list_ (chan s0 c) = []).
  { subst s0. destruct (taker_ (chan s c) =? 0); [now rewrite list_rebind|exact Hq]. }
  assert (Ht0 : taker_ (chan s0 c) =
                if taker_ (chan s c) =? 0 then id else taker_ (chan s c)).
  { subst s0. destruct (taker_ (chan s c) =? 0); [|reflexivity].
    rewrite chan_set_chan_eq. exact Hcur. }
  assert (Hs0 : slot s0 id = Some (Some r)).
  { unfold slot. rewrite Hord. exact Hs. }
  assert (Hpop : pop (Body id (self r)) c k s = pop_loop (Body id (self r)) c k s0)
    by reflexivity.
  exists (set_slot (set_ord s0 (set_current (ord s0) 0)) id (Some saved)).
  split; [|split; [|split; [|split]]].
  - cbn [step]. rewrite Hpop. unfold pop_loop. rewrite Hq0. unfold yield.
    rewrite Hord, Hcur, Hs0, Hh. cbn [on_stack]. rewrite Nat.eqb_refl, Hst.
    reflexivity.
  - reflexivity.
  - apply (slot_set_slot_eq _ id (Some r)). exact Hs0.
  - exact Hq0.
  - exact Ht0.
Qed.

Lemma pop_empty_suspends_witness :
  exists s',
    step awaiting (Run (Body 1 0%nat) (Pop 0%nat (fun _ => Return))) =
      Ok (s', Run Host (resume_times 2 1 Return)) /\
    taker_ (chan s' 0%nat) = 1 /\ current (ord s') = 0.
Proof.
  destruct (pop_empty_suspends awaiting 0%nat (fun _ => Return) 1
              (mkRoutine 0%nat await_body true false (Some Entry))
              (Run Host (resume_times 2 1 Return)))
    as (s' & H1 & Hc & _ & _ & Ht);
    [reflexivity|reflexivity|reflexivity|reflexivity|reflexivity|].
  exists s'. auto.
Defined.

(** X7. [pop] on an empty channel from the host context does not wait:
    [yield] is entered with [current] 0 and indexes the routine table at
    [0 - 1], outside the table. *)
Theorem pop_empty_from_host {T} (s : state T) (c : nat) (k : T -> code T) :
  list_ (chan s c) = [] ->
  current (ord s) = 0 ->
  Z.of_nat (length (routines (ord s))) < UINT_MAX1 ->
  step s (Run Host (Pop c k)) = Undefined /\
  step s (Run Host (PopLoop c k)) = Undefined /\
  step s (Run Host (Yield Return)) = Undefined.
Proof.
  intros Hq Hcur Hlen.
  assert (Hy : forall (s0 : state T) fr k0, ord s0 = ord s -> yield fr k0 s0 = Undefined).
  { intros s0 fr k0 Hord. unfold yield, slot. rewrite Hord, Hcur.
    assert (nth_Z (routines (ord s)) (slot_index 0) = None) as ->; [|reflexivity].
    apply nth_Z_None. rewrite slot_index_zero. lia. }
  repeat split.
  - cbn [step]. unfold pop, pop_loop.
    destruct (taker_ (chan s c) =? 0).
    + rewrite list_rebind, Hq. now apply Hy.
    + rewrite Hq. now apply Hy.
  - cbn [step]. unfold pop_loop. rewrite Hq. now apply Hy.
  - cbn [step]. now apply Hy.
Qed.

Lemma pop_empty_from_host_witness :
  step (@init Z) (Run Host (Pop 0%nat (fun _ => Return))) = Undefined.
Proof.
  apply (pop_empty_from_host init 0%nat (fun _ => Return)); reflexivity.
Defined.

(** ** touch *)

(** X8. [touch] wakes the consumer without queueing anything. With no
    consumer bound, or called by the consumer, it does nothing. From the
    host context with a suspended consumer, control goes to the consumer,
    [current] is the consumer, the caller is saved as the host context and
    no channel has changed. From inside another running routine the
    assertion of [resume] fails. *)
Theorem touch_wakes_consumer {T} (s : state T) (c : nat) (fr : frame) (k : code T) :
  (taker_ (chan s c) = 0 \/ taker_ (chan s c) = current (ord s) ->
     step s (Run fr (Touch c k)) = Ok (s, Run fr k)) /\
  (forall r cr,
     taker_ (chan s c) <> 0 -> current (ord s) = 0 ->
     slot s (taker_ (chan s c)) = Some (Some r) ->
     finished r = false -> stack r = true -> ctx r = Some cr ->
     exists s', step s (Run fr (Touch c k)) = Ok (s', cr) /\
       chans s' = chans s /\
       current (ord s') = taker_ (chan s c) /\
       host_ctx (ord s') = Some (Run fr k) /\
       routines (ord s') = routines (ord s)) /\
  (taker_ (chan s c) <> 0 -> current (ord s) <> 0 ->
     taker_ (chan s c) <> current (ord s) ->
     step s (Run fr (Touch c k)) = AssertFail).
Proof.
  split; [|split].
  - intros H. cbn [step]. unfold touch. destruct H as [-> | ->]; [reflexivity|].
    rewrite Z.eqb_refl. now rewrite andb_false_r.
  - intros r cr H0 Hcur Hs Hf Hst Hctx. eexists. split.
    + cbn [step]. unfold touch. rewrite Hcur.
      destruct (Z.eqb_spec (taker_ (chan s c)) 0); [contradiction|]. cbn [negb andb].
      unfold resume. rewrite Hcur, Hs, Hf, Hst. cbn [Z.eqb negb]. rewrite Hctx. reflexivity.
    + repeat split.
  - intros H0 Hcur Hne. cbn [step]. unfold touch.
    destruct (Z.eqb_spec (taker_ (chan s c)) 0); [contradiction|].
    destruct (Z.eqb_spec (taker_ (chan s c)) (current (ord s))); [contradiction|].
    cbn [negb andb]. now apply resume_asserts_host.
Qed.

Lemma touch_wakes_consumer_witness :
  exists s',
    step consumer_waiting (Run Host (Touch 0%nat Return)) =
      Ok (s', Run (Body 1 0%nat) (PopLoop 0%nat (fun v => Push 1%nat v Return))) /\
    chans s' = chans consumer_waiting /\ current (ord s') = 1.
Proof.
  destruct (touch_wakes_consumer consumer_waiting 0%nat Host Return) as (_ & H & _).
  destruct (H (mkRoutine 0%nat (Pop 0%nat (fun v => Push 1%nat v Return)) true false
                 (Some (Run (Body 1 0%nat) (PopLoop 0%nat (fun v => Push 1%nat v Return)))))
              (Run (Body 1 0%nat) (PopLoop 0%nat (fun v => Push 1%nat v Return))))
    as (s' & Hstep & Hch & Hcur & _);
    [vm_compute; discriminate|reflexivity|reflexivity|reflexivity|reflexivity|reflexivity|].
  exists s'. auto.
Defined.

(** ** The consumer of a channel *)

Section Binding.
Context {T : Type}.
Implicit Types (s : state T).

Lemma taker_set_chan s c ch q t :
  taker_ (chan (set_chan s c (mkChannel q t)) ch) =
  if Nat.eqb c ch then t else taker_ (chan s ch).
Proof.
  destruct (Nat.eqb_spec c ch) as [->|Hne].
  - now rewrite chan_set_chan_eq.
  - now rewrite chan_set_chan_ne.
Qed.

Lemma taker_keep s c ch q :
  taker_ (chan (set_chan s c (mkChannel q (taker_ (chan s c)))) ch) = taker_ (chan s ch).
Proof.
  rewrite taker_set_chan. destruct (Nat.eqb_spec c ch) as [->|]; reflexivity.
Qed.

End Binding.

(** X9. The consumer of a channel changes in two ways only: [consume] sets
    it, and [pop] on a channel without consumer binds the caller. Every
    other step, on this or another channel or on the scheduler, leaves it
    as it is; in particular [push], [touch], [clear] and a [pop] on a bound
    channel never rebind. *)
Theorem binding_changes_only_by {T} (s s' : state T) (c c' : context T) (ch : nat) :
  step s c = Ok (s', c') ->
  taker_ (chan s' ch) <> taker_ (chan s ch) ->
  (exists fr id k, c = Run fr (Consume ch id k) /\ taker_ (chan s' ch) = id) \/
  (exists fr k, c = Run fr (Pop ch k) /\ taker_ (chan s ch) = 0 /\
                taker_ (chan s' ch) = current (ord s)).
Proof.
  intros H Hne.
  assert (Hsame : chans s' = chans s -> False).
  { intros Hc. apply Hne. now rewrite (chans_chan _ _ _ Hc). }
  destruct c as [|fr body].
  - exfalso. apply Hsame. eapply entry_begin_chans; eauto.
  - destruct body; cbn [step] in H.
    + exfalso. apply Hsame. destruct fr; [injection H as <- <-; reflexivity|].
      eapply entry_end_chans; eauto.
    + exfalso. apply Hsame.
      destruct (create body s) as [[s1 id1]| |] eqn:Hc; try discriminate H.
      cbn [obind] in H. injection H as <- <-. eapply create_chans; eauto.
    + exfalso. apply Hsame.
      destruct (destroy id s) as [s1| |] eqn:Hd; try discriminate H.
      cbn [obind] in H. injection H as <- <-. eapply destroy_chans; eauto.
    + exfalso. apply Hsame. eapply resume_chans; eauto.
    + exfalso. apply Hsame. eapply yield_chans; eauto.
    + exfalso. apply Hsame. now injection H as <- <-.
    + exfalso. apply Hsame. now injection H as <- <-.
    + exfalso. apply Hsame. unfold await_loop in H. destruct polls.
      * now injection H as <- <-.
      * destruct (negb (current (ord s) =? 0)).
        -- eapply yield_chans; eauto.
        -- now injection H as <- <-.
    + injection H as <- <-. left. unfold consume in *.
      rewrite taker_set_chan in *.
      destruct (Nat.eqb_spec c ch) as [->|]; [eauto|contradiction].
    + exfalso. apply Hne. unfold push in H.
      match type of H with
      | (if ?b then _ else _) = _ => destruct b
      end.
      * apply resume_chans in H. rewrite (chans_chan _ _ _ H). apply taker_keep.
      * injection H as <- <-. apply taker_keep.
    + unfold pop in H.
      assert (Hloop : forall s0 : state T,
                pop_loop fr c k s0 = Ok (s', c') ->
                taker_ (chan s' ch) = taker_ (chan s0 ch)).
      { intros s0 H0. unfold pop_loop in H0. destruct (list_ (chan s0 c)).
        - apply yield_chans in H0. now rewrite (chans_chan _ _ _ H0).
        - injection H0 as <- <-. apply taker_keep. }
      apply Hloop in H.
      destruct (Z.eqb_spec (taker_ (chan s c)) 0) as [H0|H0]; [|contradiction].
      rewrite taker_set_chan in H.
      destruct (Nat.eqb_spec c ch) as [->|]; [|contradiction].
      right. eauto.
    + exfalso. apply Hne. unfold pop_loop in H. destruct (list_ (chan s c)).
      * apply yield_chans in H. now rewrite (chans_chan _ _ _ H).
      * injection H as <- <-. apply taker_keep.
    + exfalso. apply Hne. injection H as <- <-. apply taker_keep.
    + exfalso. apply Hsame. unfold touch in H.
      match type of H with
      | (if ?b then _ else _) = _ => destruct b
      end.
      * eapply resume_chans; eauto.
      * now injection H as <- <-.
    + exfalso. apply Hsame. now injection H as <- <-.
    + exfalso. apply Hsame. now injection H as <- <-.
Qed.

Lemma binding_changes_only_by_witness :
  exists s',
    step awaiting (Run (Body 1 0%nat) (Pop 0%nat (fun _ => Return))) =
      Ok (s', Run Host (resume_times 2 1 Return)) /\
    taker_ (chan awaiting 0%nat) = 0 /\ taker_ (chan s' 0%nat) = current (ord awaiting).
Proof.
  eexists. split; [vm_compute; reflexivity|].
  match goal with
  | |- _ /\ taker_ (chan ?s1 _) = _ =>
      destruct (binding_changes_only_by awaiting s1
                  (Run (Body 1 0%nat) (Pop 0%nat (fun _ => Return)))
                  (Run Host (resume_times 2 1 Return)) 0%nat)
        as [(fr & id & k & Hc & _)|(fr & k & _ & H0 & H1)];
        [vm_compute; reflexivity|vm_compute; discriminate|discriminate Hc|]
  end.
  split; [exact H0|exact H1].
Defined.

(** * The fiber backend: proofs *)

Section FiberTable.
Context {T : Type}.
Implicit Types (s : Fiber.state T) (id : routine_t) (r : Fiber.Routine T).

Lemma fiber_slot_set_slot s id0 q id :
  Fiber.slot (Fiber.set_slot s id0 q) id =
  if slot_index id0 =? slot_index id
  then option_map (fun _ => q) (Fiber.slot s id0)
  else Fiber.slot s id.
Proof. unfold Fiber.slot, Fiber.set_slot. simpl. apply nth_Z_set_Z. Qed.

Lemma fiber_slot_same_index s id0 id :
  slot_index id0 = slot_index id -> Fiber.slot s id0 = Fiber.slot s id.
Proof. unfold Fiber.slot. now intros ->. Qed.

Lemma fiber_slot_update_object s o a f id :
  Fiber.routines o = Fiber.update_object a f (Fiber.routines (Fiber.ord s)) ->
  Fiber.slot (Fiber.set_ord s o) id =
  option_map (fun p => match p with
                       | Some r => if Nat.eqb (Fiber.self r) a then Some (f r) else p
                       | None => None
                       end) (Fiber.slot s id).
Proof.
  intros Ho. unfold Fiber.slot. simpl. rewrite Ho. apply nth_Z_map.
Qed.

Lemma nth_update_object a (f : Fiber.Routine T -> Fiber.Routine T) rs i :
  nth_Z (Fiber.update_object a f rs) i =
  option_map (fun p => match p with
                       | Some r => if Nat.eqb (Fiber.self r) a then Some (f r) else p
                       | None => None
                       end) (nth_Z rs i).
Proof. apply nth_Z_map. Qed.

Lemma keeps_free_refl s : keeps_free s s.
Proof. split; auto. Qed.

Lemma keeps_free_trans s1 s2 s3 :
  keeps_free s1 s2 -> keeps_free s2 s3 -> keeps_free s1 s3.
Proof. intros [H1 H2] [H3 H4]. split; [congruence|auto]. Qed.

Lemma keeps_free_ok s s' :
  keeps_free s s' -> Fiber.free_list_ok s -> Fiber.free_list_ok s'.
Proof.
  intros [Hix Hk] [Hnd Hall]. unfold Fiber.free_list_ok. rewrite Hix.
  split; [exact Hnd|]. eapply List.Forall_impl; [|exact Hall]. exact Hk.
Qed.

Lemma keeps_free_save s fr st o :
  Fiber.indexes o = Fiber.indexes (Fiber.ord s) ->
  Fiber.routines o = Fiber.routines (Fiber.ord s) ->
  keeps_free s (Fiber.set_ord s (Fiber.save fr st o)).
Proof.
  intros Hix Hrs. split.
  - destruct fr; simpl; exact Hix.
  - intros id Hs. destruct fr as [|id0 a].
    + unfold Fiber.slot in *. simpl. now rewrite Hrs.
    + unfold Fiber.save. erewrite fiber_slot_update_object; [|simpl; now rewrite Hrs].
      now rewrite Hs.
Qed.

Lemma fiber_resume_keeps_free id fr ret s s' c' :
  Fiber.resume id fr ret s = Ok (s', c') -> keeps_free s s'.
Proof.
  unfold Fiber.resume. intros H.
  destruct (negb (Fiber.current (Fiber.ord s) =? 0)); [discriminate H|].
  destruct (Fiber.slot s id) as [[r0|]|] eqn:Hs; try discriminate H.
  - destruct (Fiber.finished r0); [injection H as <- <-; apply keeps_free_refl|].
    destruct (Fiber.runs_on fr r0); [discriminate H|]. injection H as <- <-.
    destruct (Fiber.fiber r0).
    + apply keeps_free_save; reflexivity.
    + eapply keeps_free_trans; [|apply keeps_free_save; reflexivity].
      split; [reflexivity|]. intros id' Hs'. rewrite fiber_slot_set_slot.
      destruct (Z.eqb_spec (slot_index id) (slot_index id')) as [He|]; [|exact Hs'].
      rewrite (fiber_slot_same_index s _ _ He) in Hs. congruence.
  - injection H as <- <-. apply keeps_free_refl.
Qed.

Lemma fiber_yield_keeps_free fr k s s' c' :
  Fiber.yield fr k s = Ok (s', c') -> keeps_free s s'.
Proof.
  unfold Fiber.yield. intros H.
  destruct (Fiber.slot s (Fiber.current (Fiber.ord s))) as [[r0|]|]; try discriminate H.
  destruct fr as [|id0 a0]; [discriminate H|].
  destruct (Fiber.host_fiber (Fiber.ord s)); [|discriminate H].
  injection H as <- <-.
  exact (keeps_free_save s (Body id0 a0) (Fiber.At (Body id0 a0) k)
           (Fiber.set_current (Fiber.ord s) 0) eq_refl eq_refl).
Qed.

Lemma fiber_entry_end_keeps_free id a s s' c' :
  Fiber.entry_end id a s = Ok (s', c') -> keeps_free s s'.
Proof.
  unfold Fiber.entry_end. intros H.
  destruct (Fiber.host_fiber (Fiber.ord s)); [|discriminate H].
  injection H as <- <-.
  set (s1 := Fiber.set_ord s (Fiber.set_current
               (Fiber.set_routines (Fiber.ord s)
                  (Fiber.update_object a (@Fiber.set_finished T)
                     (Fiber.routines (Fiber.ord s)))) 0)).
  apply (keeps_free_trans s s1).
  - split; [reflexivity|]. intros id' Hs. subst s1.
    erewrite fiber_slot_update_object; [|reflexivity]. now rewrite Hs.
  - apply (keeps_free_save s1 (Body id a) Fiber.Final (Fiber.ord s1)); reflexivity.
Qed.

Lemma fiber_create_ok f s s' id :
  Fiber.create f s = Ok (s', id) -> Fiber.free_list_ok s -> Fiber.free_list_ok s'.
Proof.
  unfold Fiber.create. intros H [Hnd Hall].
  destruct (Fiber.indexes (Fiber.ord s)) as [|i rest] eqn:Hix.
  - injection H as <- <-. unfold Fiber.free_list_ok. simpl. rewrite Hix.
    split; constructor.
  - match type of H with
    | match Fiber.slot ?s2 i with _ => _ end = _ =>
        change (Fiber.slot s2 i) with (Fiber.slot s i) in H;
        destruct (Fiber.slot s i) as [[r0|]|] eqn:Hs; try discriminate H
    end.
    injection H as <- <-. simpl in Hnd.
    apply List.NoDup_cons_iff in Hnd as [Hnotin Hnd'].
    inversion Hall as [|x l Hi Hrest]; subst.
    unfold Fiber.free_list_ok. simpl. split; [exact Hnd'|].
    rewrite List.Forall_forall in *. intros id' Hin.
    change (Fiber.slot ?a id' = Some None) with
      (nth_Z (Fiber.routines (Fiber.ord a)) (slot_index id') = Some None).
    simpl. rewrite nth_Z_set_Z_ne; [apply (Hrest id' Hin)|].
    intros He. apply Hnotin. rewrite He. now apply in_map.
Qed.

Lemma fiber_destroy_ok id s s' :
  Fiber.destroy id s = Ok s' -> Fiber.free_list_ok s -> Fiber.free_list_ok s'.
Proof.
  unfold Fiber.destroy. intros H [Hnd Hall].
  destruct (Fiber.slot s id) as [[r0|]|] eqn:Hs; try discriminate H.
  injection H as <-. unfold Fiber.free_list_ok. simpl.
  assert (Hfresh : ~ In (slot_index id) (map slot_index (Fiber.indexes (Fiber.ord s)))).
  { intros Hin. apply List.in_map_iff in Hin as (id' & He & Hin').
    rewrite List.Forall_forall in Hall. specialize (Hall id' Hin').
    rewrite (fiber_slot_same_index s _ _ He) in Hall. congruence. }
  split.
  - rewrite map_app. simpl. apply List.NoDup_app; [exact Hnd| |].
    + constructor; [intros []|constructor].
    + intros x Hx [<-|[]]. now apply Hfresh.
  - apply List.Forall_app. split.
    + rewrite List.Forall_forall in *. intros id' Hin.
      change (Fiber.slot ?a id' = Some None) with
        (nth_Z (Fiber.routines (Fiber.ord a)) (slot_index id') = Some None).
      simpl. rewrite nth_Z_set_Z_ne; [apply (Hall id' Hin)|].
      intros He. apply Hfresh. rewrite He. now apply in_map.
    + constructor; [|constructor].
      change (Fiber.slot ?a id = Some None) with
        (nth_Z (Fiber.routines (Fiber.ord a)) (slot_index id) = Some None).
      simpl. apply nth_Z_set_Z_eq. eapply nth_Z_Some_range. exact Hs.
Qed.

Lemma keeps_free_chans s s' :
  Fiber.ord s' = Fiber.ord s -> keeps_free s s'.
Proof. intros H. unfold keeps_free, Fiber.slot. rewrite H. auto. Qed.

Lemma fiber_step_ok s c s' c' :
  Fiber.step s c = Ok (s', c') -> Fiber.free_list_ok s -> Fiber.free_list_ok s'.
Proof.
  intros H Hok.
  assert (Hk : keeps_free s s' -> Fiber.free_list_ok s')
    by (intros Hk; now apply (keeps_free_ok s s')).
  destruct c as [|fr body|]; [| |discriminate H].
  - apply Hk. cbn [Fiber.step] in H. unfold Fiber.entry_begin in H.
    invert_ok H. apply keeps_free_refl.
  - destruct body; cbn [Fiber.step] in H.
    + apply Hk. destruct fr; [injection H as <- <-; apply keeps_free_refl|].
      eapply fiber_entry_end_keeps_free; eauto.
    + destruct (Fiber.create body s) as [[s1 id1]| |] eqn:Hc; try discriminate H.
      cbn [obind] in H. injection H as <- <-. eapply fiber_create_ok; eauto.
    + destruct (Fiber.destroy id s) as [s1| |] eqn:Hd; try discriminate H.
      cbn [obind] in H. injection H as <- <-. eapply fiber_destroy_ok; eauto.
    + apply Hk. eapply fiber_resume_keeps_free; eauto.
    + apply Hk. eapply fiber_yield_keeps_free; eauto.
    + apply Hk. injection H as <- <-. apply keeps_free_refl.
    + apply Hk. injection H as <- <-. now apply keeps_free_chans.
    + apply Hk. unfold Fiber.await_loop in H. destruct polls.
      * injection H as <- <-. apply keeps_free_refl.
      * destruct (negb (Fiber.current (Fiber.ord s) =? 0)).
        -- eapply fiber_yield_keeps_free; eauto.
        -- injection H as <- <-. apply keeps_free_refl.
    + apply Hk. injection H as <- <-. now apply keeps_free_chans.
    + apply Hk. unfold Fiber.push in H.
      match type of H with
      | (if ?b then _ else _) = _ => destruct b
      end.
      * apply fiber_resume_keeps_free in H.
        eapply keeps_free_trans; [|exact H]. now apply keeps_free_chans.
      * injection H as <- <-. now apply keeps_free_chans.
    + apply Hk. unfold Fiber.pop, Fiber.pop_loop in H.
      match type of H with
      | match list_ (Fiber.chan ?s1 c) with _ => _ end = _ =>
          assert (H1 : keeps_free s s1)
            by (apply keeps_free_chans; destruct (taker_ (Fiber.chan s c) =? 0); reflexivity);
          destruct (list_ (Fiber.chan s1 c));
          [apply fiber_yield_keeps_free in H; eapply keeps_free_trans; eauto
          |injection H as <- <-; eapply keeps_free_trans; [exact H1|];
           now apply keeps_free_chans]
      end.
    + apply Hk. unfold Fiber.pop_loop in H. destruct (list_ (Fiber.chan s c)).
      * eapply fiber_yield_keeps_free; eauto.
      * injection H as <- <-. now apply keeps_free_chans.
    + apply Hk. injection H as <- <-. now apply keeps_free_chans.
    + apply Hk. unfold Fiber.touch in H.
      match type of H with
      | (if ?b then _ else _) = _ => destruct b
      end.
      * eapply fiber_resume_keeps_free; eauto.
      * injection H as <- <-. apply keeps_free_refl.
    + apply Hk. injection H as <- <-. apply keeps_free_refl.
    + apply Hk. injection H as <- <-. apply keeps_free_refl.
Qed.

End FiberTable.

(** X10. On the fiber backend the free-list always holds identifiers of
    distinct, empty slots: the property holds initially and every step of
    any program keeps it, whatever routines are created, destroyed, run to
    their end or suspended. So in every state a run reaches, [create]
    succeeds: its assertion on the reused slot holds and the slot is in the
    table. *)
Theorem fiber_create_never_fails {T} (n : nat) (s s' : Fiber.state T)
    (c c' : Fiber.fiber_state T) :
  Fiber.free_list_ok s ->
  Fiber.run n s c = Ok (s', c') ->
  Fiber.free_list_ok s' /\
  (forall id, In id (Fiber.indexes (Fiber.ord s')) -> Fiber.slot s' id = Some None) /\
  (forall f, exists s'' id, Fiber.create f s' = Ok (s'', id)).
Proof.
  intros Hok Hrun.
  assert (Hok' : Fiber.free_list_ok s').
  { revert s c Hok Hrun. induction n as [|n IH]; intros s c Hok Hrun.
    - now injection Hrun as <- <-.
    - cbn [Fiber.run] in Hrun.
      destruct (Fiber.step s c) as [[s1 c1]| |] eqn:Hstep; try discriminate Hrun.
      cbn [obind] in Hrun. eapply IH; [|exact Hrun]. eapply fiber_step_ok; eauto. }
  split; [exact Hok'|]. destruct Hok' as [_ Hall]. rewrite List.Forall_forall in Hall.
  split; [exact Hall|].
  intros f. unfold Fiber.create.
  destruct (Fiber.indexes (Fiber.ord s')) as [|i rest] eqn:Hix; [eauto|].
  match goal with
  | |- context [match Fiber.slot ?s2 i with _ => _ end] =>
      change (Fiber.slot s2 i) with (Fiber.slot s' i)
  end.
  rewrite (Hall i) by now left. eauto.
Qed.

Lemma fiber_init_ok {T} : Fiber.free_list_ok (@Fiber.init T).
Proof. split; constructor. Qed.

Lemma fiber_create_never_fails_witness :
  exists s', Fiber.run 9 Fiber.init (Fiber.At Host fiber_recycle) =
               Ok (s', Fiber.At Host Return) /\
             Fiber.indexes (Fiber.ord s') = [] /\
             length (Fiber.routines (Fiber.ord s')) = 3%nat /\
             Fiber.free_list_ok s'.
Proof.
  eexists. split; [vm_compute; reflexivity|].
  split; [reflexivity|]. split; [reflexivity|].
  eapply (fiber_create_never_fails 9 Fiber.init _ (Fiber.At Host fiber_recycle)
            (Fiber.At Host Return) fiber_init_ok).
  vm_compute. reflexivity.
Defined.

(** X11. On the fiber backend, when the body of the routine in slot [id]
    returns, [entry] sets its completion flag, sets [current] to 0 and
    switches to the host fiber; the free-list is left as it is and the slot
    keeps the finished routine. The identifier is reissued only after
    [destroy]. *)
Theorem fiber_entry_end_keeps_identifier {T} (s : Fiber.state T) (id : routine_t)
    (r : Fiber.Routine T) (h : Fiber.fiber_state T) :
  Fiber.slot s id = Some (Some r) ->
  Fiber.host_fiber (Fiber.ord s) = Some h ->
  exists s' r',
    Fiber.step s (Fiber.At (Body id (Fiber.self r)) Return) = Ok (s', h) /\
    Fiber.indexes (Fiber.ord s') = Fiber.indexes (Fiber.ord s) /\
    Fiber.current (Fiber.ord s') = 0 /\
    Fiber.slot s' id = Some (Some r') /\
    Fiber.finished r' = true /\ Fiber.self r' = Fiber.self r /\
    Fiber.func r' = Fiber.func r /\
    (Fiber.free_list_ok s -> ~ In id (Fiber.indexes (Fiber.ord s'))).
Proof.
  intros Hs Hh. cbn [Fiber.step]. unfold Fiber.entry_end. rewrite Hh.
  eexists. eexists. split; [reflexivity|].
  split; [reflexivity|]. split; [reflexivity|]. split.
  - unfold Fiber.slot in *.
    cbn [Fiber.save Fiber.ord Fiber.set_ord Fiber.routines Fiber.set_current
         Fiber.set_routines].
    rewrite !nth_update_object, Hs. cbn [option_map]. rewrite Nat.eqb_refl.
    cbn [Fiber.set_finished Fiber.self]. rewrite Nat.eqb_refl. reflexivity.
  - cbn [Fiber.set_finished Fiber.fiber].
    destruct (Fiber.fiber r); repeat split; try reflexivity;
      intros [_ Hall] Hin; rewrite List.Forall_forall in Hall;
      specialize (Hall id Hin); congruence.
Qed.

Lemma fiber_entry_end_keeps_identifier_witness :
  exists s',
    Fiber.step fiber_body_returning (Fiber.At (Body 1 0%nat) Return) =
      Ok (s', Fiber.At Host (Create Return (fun _ => Return))) /\
    Fiber.indexes (Fiber.ord s') = [] /\
    exists s'', Fiber.create Return s' = Ok (s'', 2).
Proof.
  destruct (fiber_entry_end_keeps_identifier fiber_body_returning 1
              (Fiber.mkRoutine 0%nat Return false (Some Fiber.Start))
              (Fiber.At Host (Create Return (fun _ => Return))))
    as (s' & r' & Hstep & Hix & _); [reflexivity|reflexivity|].
  exists s'. split; [exact Hstep|]. split; [exact Hix|].
  injection Hstep as <-. eexists. vm_compute. reflexivity.
Defined.

(** X12. [resume] on the fiber backend has the outcomes of the other
    backend: outside the host context its assertion fails; an index outside
    the table is not checked; an empty slot gives -1 and a finished routine
    -2, both without any change of state or switch of fiber. *)
Theorem fiber_resume_failures {T} (s : Fiber.state T) (id : routine_t) (fr : frame)
    (k : Z -> code T) :
  (Fiber.current (Fiber.ord s) <> 0 -> Fiber.resume id fr k s = AssertFail) /\
  (Fiber.current (Fiber.ord s) = 0 ->
     (Fiber.slot s id = None -> Fiber.resume id fr k s = Undefined) /\
     (Fiber.slot s id = Some None ->
        Fiber.resume id fr k s = Ok (s, Fiber.At fr (k (-1)))) /\
     (forall r, Fiber.slot s id = Some (Some r) -> Fiber.finished r = true ->
        Fiber.resume id fr k s = Ok (s, Fiber.At fr (k (-2))))).
Proof.
  split.
  - intros H. unfold Fiber.resume.
    destruct (Z.eqb_spec (Fiber.current (Fiber.ord s)) 0); [contradiction|reflexivity].
  - intros Hcur. unfold Fiber.resume. rewrite Hcur. cbn [Z.eqb negb]. repeat split.
    + now intros ->.
    + now intros ->.
    + intros r -> ->. reflexivity.
Qed.

Lemma fiber_resume_failures_witness :
  Fiber.resume 1 Host (fun z => Destroy z Return) (@Fiber.init Z) = Undefined /\
  Fiber.resume 1 Host (fun z => Destroy z Return) fiber_body_returning = AssertFail.
Proof.
  destruct (fiber_resume_failures (@Fiber.init Z) 1 Host (fun z => Destroy z Return))
    as [_ H1].
  destruct (fiber_resume_failures fiber_body_returning 1 Host (fun z => Destroy z Return))
    as [H2 _].
  split.
  - apply H1; reflexivity.
  - apply H2. vm_compute. discriminate.
Defined.

(** X13. The two backends agree on a routine that yields once and returns.
    On the fiber backend too the first [resume] returns 0 to the host with
    the routine suspended, the second returns 0 with the completion flag
    set, and the third returns -2 and changes nothing; the free-list is the
    one before the first call. *)
Theorem fiber_yield_once_then_return {T} (s : Fiber.state T) (id : routine_t)
    (r : Fiber.Routine T) (k : Z -> Z -> Z -> code T) :
  Fiber.current (Fiber.ord s) = 0 ->
  Fiber.slot s id = Some (Some r) ->
  Fiber.func r = Yield Return -> Fiber.fiber r = None -> Fiber.finished r = false ->
  exists s1 s2 r2,
    Fiber.run 3 s (Fiber.At Host (three_resumes id k)) =
      Ok (s1, Fiber.At Host (Resume id (fun r2 => Resume id (fun r3 => k 0 r2 r3)))) /\
    Fiber.current (Fiber.ord s1) = 0 /\
    Fiber.run 5 s (Fiber.At Host (three_resumes id k)) =
      Ok (s2, Fiber.At Host (Resume id (fun r3 => k 0 0 r3))) /\
    Fiber.current (Fiber.ord s2) = 0 /\
    Fiber.slot s2 id = Some (Some r2) /\ Fiber.finished r2 = true /\
    Fiber.indexes (Fiber.ord s2) = Fiber.indexes (Fiber.ord s) /\
    Fiber.run 6 s (Fiber.At Host (three_resumes id k)) =
      Ok (s2, Fiber.At Host (k 0 0 (-2))).
Proof.
  intros Hcur Hs Hfunc Hfib Hfin.
  assert (Hrange : 0 <= slot_index id < Z.of_nat (length (Fiber.routines (Fiber.ord s))))
    by (eapply nth_Z_Some_range; exact Hs).
  set (K1 := fun r2 => Resume id (fun r3 => k 0 r2 r3)).
  set (K2 := fun r3 => k 0 0 r3).
  set (body := Body id (Fiber.self r)).
  set (ra := Fiber.set_fiber r Fiber.Start).
  set (s0 := Fiber.set_slot s id (Some ra)).
  set (sa := Fiber.set_ord s0
               (Fiber.save Host (Fiber.At Host (Resume id K1))
                  (Fiber.set_current (Fiber.ord s0) id))).
  assert (H1 : Fiber.step s (Fiber.At Host (three_resumes id k)) = Ok (sa, Fiber.Start)).
  { cbn [Fiber.step three_resumes]. unfold Fiber.resume.
    rewrite Hcur, Hs, Hfin, Hfib. reflexivity. }
  assert (Hsa : Fiber.slot sa id = Some (Some ra)).
  { unfold Fiber.slot. subst sa s0. simpl. now apply nth_Z_set_Z_eq. }
  assert (H2 : Fiber.step sa Fiber.Start = Ok (sa, Fiber.At body (Yield Return))).
  { cbn [Fiber.step]. unfold Fiber.entry_begin.
    change (Fiber.current (Fiber.ord sa)) with id. rewrite Hsa.
    cbn [ra Fiber.set_fiber Fiber.self Fiber.func]. now rewrite Hfunc. }
  set (rb := Fiber.set_fiber ra (Fiber.At body Return)).
  set (s1 := Fiber.set_ord sa
               (Fiber.save body (Fiber.At body Return)
                  (Fiber.set_current (Fiber.ord sa) 0))).
  assert (H3 : Fiber.step sa (Fiber.At body (Yield Return)) =
               Ok (s1, Fiber.At Host (Resume id K1))).
  { cbn [Fiber.step]. unfold Fiber.yield.
    change (Fiber.current (Fiber.ord sa)) with id. rewrite Hsa. reflexivity. }
  assert (Hs1 : Fiber.slot s1 id = Some (Some rb)).
  { unfold Fiber.slot in *. subst s1.
    cbn [body Fiber.save Fiber.ord Fiber.set_ord Fiber.routines Fiber.set_current
         Fiber.set_routines].
    rewrite nth_update_object, Hsa. cbn [option_map ra Fiber.set_fiber Fiber.self Fiber.fiber].
    now rewrite Nat.eqb_refl. }
  set (sb := Fiber.set_ord s1
               (Fiber.save Host (Fiber.At Host (Resume id K2))
                  (Fiber.set_current (Fiber.ord s1) id))).
  assert (H4 : Fiber.step s1 (Fiber.At Host (Resume id K1)) = Ok (sb, Fiber.At body Return)).
  { cbn [Fiber.step]. unfold Fiber.resume.
    change (Fiber.current (Fiber.ord s1)) with 0. rewrite Hs1.
    cbn [rb ra Fiber.set_fiber Fiber.finished Fiber.fiber Fiber.runs_on Z.eqb negb].
    rewrite Hfin. reflexivity. }
  assert (Hsb : Fiber.slot sb id = Some (Some rb)) by exact Hs1.
  set (r2 := Fiber.set_fiber (Fiber.set_finished rb) Fiber.Final).
  set (s2 := Fiber.set_ord sb
               (Fiber.save body Fiber.Final
                  (Fiber.set_current
                     (Fiber.set_routines (Fiber.ord sb)
                        (Fiber.update_object (Fiber.self r) (@Fiber.set_finished T)
                           (Fiber.routines (Fiber.ord sb)))) 0))).
  assert (H5 : Fiber.step sb (Fiber.At body Return) = Ok (s2, Fiber.At Host (Resume id K2))).
  { reflexivity. }
  assert (Hs2 : Fiber.slot s2 id = Some (Some r2)).
  { unfold Fiber.slot in *. subst s2.
    cbn [body Fiber.save Fiber.ord Fiber.set_ord Fiber.routines Fiber.set_current
         Fiber.set_routines].
    rewrite !nth_update_object, Hsb.
    cbn [option_map rb ra Fiber.set_fiber Fiber.set_finished Fiber.self Fiber.fiber].
    now rewrite !Nat.eqb_refl. }
  assert (H6 : Fiber.step s2 (Fiber.At Host (Resume id K2)) =
               Ok (s2, Fiber.At Host (k 0 0 (-2)))).
  { cbn [Fiber.step]. unfold Fiber.resume.
    change (Fiber.current (Fiber.ord s2)) with 0. rewrite Hs2. reflexivity. }
  exists s1, s2, r2.
  assert (R3 : Fiber.run 3 s (Fiber.At Host (three_resumes id k)) =
               Ok (s1, Fiber.At Host (Resume id K1))).
  { cbn [Fiber.run]. rewrite H1. cbn [obind]. rewrite H2. cbn [obind]. rewrite H3.
    reflexivity. }
  assert (R5 : Fiber.run 5 s (Fiber.At Host (three_resumes id k)) =
               Ok (s2, Fiber.At Host (Resume id K2))).
  { cbn [Fiber.run]. rewrite H1. cbn [obind]. rewrite H2. cbn [obind]. rewrite H3.
    cbn [obind]. rewrite H4. cbn [obind]. rewrite H5. reflexivity. }
  assert (R6 : Fiber.run 6 s (Fiber.At Host (three_resumes id k)) =
               Ok (s2, Fiber.At Host (k 0 0 (-2)))).
  { cbn [Fiber.run]. rewrite H1. cbn [obind]. rewrite H2. cbn [obind]. rewrite H3.
    cbn [obind]. rewrite H4. cbn [obind]. rewrite H5. cbn [obind]. rewrite H6.
    reflexivity. }
  repeat split; try assumption; try reflexivity.
Qed.

Lemma fiber_yield_once_then_return_witness :
  exists s2,
    Fiber.run 6 fiber_yields_once
      (Fiber.At Host (three_resumes 1 (fun r1 r2 r3 => Size 0%nat (fun _ => Return)))) =
      Ok (s2, Fiber.At Host (Size 0%nat (fun _ => Return))) /\
    Fiber.indexes (Fiber.ord s2) = [].
Proof.
  destruct (fiber_yield_once_then_return fiber_yields_once 1
              (Fiber.mkRoutine 0%nat (Yield Return) false None)
              (fun r1 r2 r3 => Size 0%nat (fun _ => Return)))
    as (s1 & s2 & r2 & _ & _ & _ & _ & _ & _ & Hix & Hrun);
    [reflexivity|reflexivity|reflexivity|reflexivity|reflexivity|].
  exists s2. split; [exact Hrun|exact Hix].
Defined.

(** ** destroy after the body has returned *)

(** X14. A routine that ran to its end and is then destroyed is recycled
    twice. With an empty free-list before the body returns, the end of
    [entry] followed by [destroy id] leaves the free-list [id; id]; the next
    [create] returns [id] and the one after it takes [id] again, finds the
    slot occupied and fails its assertion. *)
Theorem destroy_after_completion {T} (s : state T) (id : routine_t) (r : Routine T)
    (h : context T) (f g : code T) :
  indexes (ord s) = [] ->
  slot s id = Some (Some r) ->
  host_ctx (ord s) = Some h ->
  exists s1 s2 s3,
    step s (Run (Body id (self r)) Return) = Ok (s1, h) /\
    destroy id s1 = Ok s2 /\
    indexes (ord s2) = [id; id] /\
    create f s2 = Ok (s3, id) /\
    indexes (ord s3) = [id] /\
    create g s3 = AssertFail.
Proof.
  intros Hix Hs Hh.
  assert (Hrange : 0 <= slot_index id < Z.of_nat (length (routines (ord s))))
    by (eapply nth_Z_Some_range; exact Hs).
  set (s1 := set_ord s
               (set_indexes (set_current (set_routines (ord s)
                  (write_finished (self r) (routines (ord s)))) 0)
                  (indexes (ord s) ++ [id]))).
  assert (H1 : step s (Run (Body id (self r)) Return) = Ok (s1, h)).
  { cbn [step]. unfold entry_end. rewrite Hh. reflexivity. }
  assert (Hs1 : slot s1 id = Some (Some (set_finished r))).
  { unfold slot. subst s1. simpl. rewrite slot_write_finished, Hs. simpl.
    now rewrite Nat.eqb_refl. }
  destruct (destroy_effect s1 id (set_finished r) Hs1)
    as (s2 & Hd & Hs2 & Hix2 & _).
  assert (Hix2' : indexes (ord s2) = [id; id]).
  { rewrite Hix2. subst s1. simpl. now rewrite Hix. }
  set (fresh := mkRoutine (allocated s2) f false false None).
  set (s2' := set_ord (mkState (ord s2) (chans s2) (asyncs s2) (S (allocated s2)))
                (set_indexes (ord s2) [id])).
  set (s3 := set_slot s2' id (Some fresh)).
  assert (Hc : create f s2 = Ok (s3, id)).
  { unfold create. rewrite Hix2'.
    change (slot (set_ord _ (set_indexes (ord s2) [id])) id) with (slot s2 id).
    rewrite Hs2. reflexivity. }
  assert (Hs3 : slot s3 id = Some (Some fresh)).
  { subst s3. apply (slot_set_slot_eq s2' id None). exact Hs2. }
  exists s1, s2, s3. repeat split; try assumption.
  unfold create. change (indexes (ord s3)) with [id]. cbv beta iota zeta.
  change (slot (set_ord _ (set_indexes (ord s3) [])) id) with (slot s3 id).
  now rewrite Hs3.
Qed.

Lemma destroy_after_completion_witness :
  exists s1 s2 s3,
    step body_returning (Run (Body 1 0%nat) Return) =
      Ok (s1, Run Host (Create Return (fun _ => Return))) /\
    destroy 1 s1 = Ok s2 /\
    create Return s2 = Ok (s3, 1) /\
    create (Yield Return) s3 = AssertFail.
Proof.
  destruct (destroy_after_completion body_returning 1
              (mkRoutine 0%nat Return true false (Some Entry))
              (Run Host (Create Return (fun _ => Return))) Return (Yield Return))
    as (s1 & s2 & s3 & H1 & H2 & _ & H3 & _ & H4);
    [reflexivity|reflexivity|reflexivity|].
  exists s1, s2, s3. auto.
Defined.

(** ** Who is running *)

Section Consistent.
Context {T : Type}.
Implicit Types (s : state T) (o : Ordinator T).

Lemma In_set_Z {A} (l : list A) : forall i x y,
  In y (set_Z l i x) -> y = x \/ In y l.
Proof.
  induction l as [|z l IH]; intros i x y H; simpl in H; [contradiction|].
  destruct (i =? 0); simpl in H.
  - destruct H as [<-|H]; [now left|right; now right].
  - destruct H as [<-|H]; [right; now left|].
    apply IH in H as [->|H]; [now left|right; now right].
Qed.

Lemma In_write_finished a (rs : list (option (Routine T))) r' :
  In (Some r') (write_finished a rs) ->
  exists r, In (Some r) rs /\ ctx r' = ctx r.
Proof.
  unfold write_finished. intros H. apply List.in_map_iff in H as ([r|] & He & Hin).
  - destruct (Nat.eqb (self r) a); injection He as <-; eauto.
  - discriminate He.
Qed.

Lemma resume_consistent id fr k s0 s s' c' :
  ord s0 = ord s ->
  resume id (fun z => Run fr (k z)) s0 = Ok (s', c') ->
  Z.of_nat (table_size s) < UINT_MAX1 ->
  frame_ok s (Run fr Return) -> saved_ok (ord s) ->
  consistent s' c'.
Proof.
  intros Hord H Hlen Hfr [Hhost Hsaved]. unfold resume in H. rewrite Hord in H.
  destruct (Z.eqb_spec (current (ord s)) 0) as [Hcur|]; [|discriminate H].
  cbn [negb] in H.
  assert (Hfr0 : fr = Host) by (destruct fr; [reflexivity|simpl in Hfr; contradiction]).
  subst fr.
  destruct (slot s0 id) as [[r|]|] eqn:Hs; try discriminate H.
  - assert (Hs' : slot s id = Some (Some r)) by (unfold slot in *; now rewrite <- Hord).
    assert (Hid : id <> 0).
    { intros ->. apply nth_Z_Some_range in Hs'. rewrite slot_index_zero in Hs'.
      unfold table_size in Hlen. lia. }
    assert (Hin : In (Some r) (routines (ord s))) by (eapply nth_Z_In; exact Hs').
    destruct (finished r).
    { injection H as <- <-. split; [simpl; now rewrite Hord|]. rewrite Hord. now split. }
    destruct (negb (stack r)).
    + injection H as <- <-. split; [exact Hid|]. split.
      * simpl. intros h [= <-]. exact I.
      * simpl. rewrite Hord. intros r0 x Hin0 Hx.
        apply In_set_Z in Hin0 as [[= ->]|Hin0]; [|eauto].
        simpl in Hx. injection Hx as <-. auto.
    + destruct (ctx r) as [cr|] eqn:Hctx; [|discriminate H]. injection H as <- <-.
      pose proof (Hsaved r cr Hin Hctx) as Hnh. split.
      * destruct cr as [|[|] ?]; simpl; auto. simpl in Hnh. contradiction.
      * split.
        -- simpl. intros h [= <-]. exact I.
        -- simpl. rewrite ?Hord. exact Hsaved.
  - injection H as <- <-. split; [simpl; now rewrite Hord|]. rewrite Hord. now split.
Qed.

Lemma yield_consistent fr k s0 s s' c' :
  ord s0 = ord s ->
  yield fr k s0 = Ok (s', c') ->
  saved_ok (ord s) ->
  consistent s' c'.
Proof.
  intros Hord H [Hhost Hsaved]. unfold yield in H. rewrite Hord in H.
  destruct (slot s0 (current (ord s))) as [[r|]|] eqn:Hs; try discriminate H.
  destruct fr as [|id0 a]; [discriminate H|].
  destruct (negb (on_stack (Body id0 a) r)); [discriminate H|].
  destruct (host_ctx (ord s)) as [h|] eqn:Hh; [|discriminate H].
  injection H as <- <-. pose proof (Hhost h eq_refl) as Hhc.
  assert (Hin : In (Some r) (routines (ord s))).
  { unfold slot in Hs. rewrite Hord in Hs. eapply nth_Z_In; exact Hs. }
  split.
  - destruct h as [|[|] ?]; simpl in Hhc |- *; try contradiction. reflexivity.
  - split.
    + simpl. rewrite ?Hord, Hh. intros h' [= <-]. exact Hhc.
    + simpl. rewrite ?Hord. intros r0 x Hin0 Hx.
      apply In_set_Z in Hin0 as [[= ->]|Hin0]; [|eauto].
      simpl in Hx. injection Hx as <-. auto.
Qed.

Lemma entry_end_consistent id a s s' c' :
  entry_end id a s = Ok (s', c') ->
  saved_ok (ord s) ->
  consistent s' c'.
Proof.
  intros H [Hhost Hsaved]. unfold entry_end in H.
  destruct (host_ctx (ord s)) as [h|] eqn:Hh; [|discriminate H].
  injection H as <- <-. pose proof (Hhost h eq_refl) as Hhc. split.
  - destruct h as [|[|] ?]; simpl in Hhc |- *; try contradiction. reflexivity.
  - split.
    + simpl. rewrite Hh. intros h' [= <-]. exact Hhc.
    + simpl. intros r0 x Hin0 Hx.
      apply In_write_finished in Hin0 as (r & Hin & Hc). rewrite Hc in Hx. eauto.
Qed.

Lemma create_saved f s s' id :
  create f s = Ok (s', id) -> saved_ok (ord s) -> saved_ok (ord s').
Proof.
  unfold create. intros H [Hhost Hsaved].
  destruct (indexes (ord s)) as [|i rest]; [injection H as <- <-|].
  - split; [exact Hhost|]. simpl. intros r x Hin Hx.
    apply in_app_or in Hin as [Hin|[[= <-]|[]]]; [eauto|discriminate Hx].
  - match type of H with
    | match ?x with _ => _ end = _ => destruct x as [[?|]|]; try discriminate H
    end.
    injection H as <- <-. split; [exact Hhost|]. simpl. intros r1 x Hin Hx.
    apply In_set_Z in Hin as [[= ->]|Hin]; [discriminate Hx|eauto].
Qed.

Lemma destroy_saved id s s' :
  destroy id s = Ok s' -> saved_ok (ord s) -> saved_ok (ord s').
Proof.
  unfold destroy. intros H [Hhost Hsaved].
  destruct (slot s id) as [[?|]|]; try discriminate H. injection H as <-.
  split; [exact Hhost|]. simpl. intros r1 x Hin Hx.
  apply In_set_Z in Hin as [Heq|Hin]; [discriminate Heq|eauto].
Qed.

Lemma consistent_same s s' fr k k' :
  ord s' = ord s -> consistent s (Run fr k) -> consistent s' (Run fr k').
Proof. intros H [Hf Hs]. unfold consistent, frame_ok in *. rewrite H. now split. Qed.

Lemma frame_ok_code s fr k k' : frame_ok s (Run fr k) -> frame_ok s (Run fr k').
Proof. auto. Qed.

Lemma step_consistent s c s' c' :
  step s c = Ok (s', c') ->
  Z.of_nat (table_size s) < UINT_MAX1 ->
  consistent s c -> consistent s' c'.
Proof.
  intros H Hlen Hc. pose proof Hc as [Hf Hs]. destruct c as [|fr body].
  - cbn [step] in H. unfold entry_begin in H. invert_ok H. split; assumption.
  - destruct body; cbn [step] in H.
    + destruct fr; [injection H as <- <-; exact Hc|].
      eapply entry_end_consistent; eauto.
    + destruct (create body s) as [[s1 id1]| |] eqn:Hcr; try discriminate H.
      cbn [obind] in H. injection H as <- <-. split.
      * unfold frame_ok in *. now rewrite (create_current _ _ _ _ Hcr).
      * eapply create_saved; eauto.
    + destruct (destroy id s) as [s1| |] eqn:Hd; try discriminate H.
      cbn [obind] in H. injection H as <- <-. split.
      * unfold frame_ok in *. now rewrite (destroy_current _ _ _ Hd).
      * eapply destroy_saved; eauto.
    + eapply (resume_consistent id fr k s s); eauto.
    + eapply (yield_consistent fr body s s); eauto.
    + injection H as <- <-. exact Hc.
    + injection H as <- <-. exact Hc.
    + unfold await_loop in H. destruct polls.
      * injection H as <- <-. exact Hc.
      * destruct (negb (current (ord s) =? 0)).
        -- eapply (yield_consistent fr _ s s); eauto.
        -- injection H as <- <-. exact Hc.
    + injection H as <- <-. eapply consistent_same; [|exact Hc]. reflexivity.
    + unfold push in H.
      match type of H with
      | (if ?b then _ else _) = _ => destruct b
      end.
      * eapply (resume_consistent _ fr (fun _ => body) _ s); [|exact H|exact Hlen|exact Hf|exact Hs].
        reflexivity.
      * injection H as <- <-. eapply consistent_same; [|exact Hc]. reflexivity.
    + unfold pop, pop_loop in H.
      match type of H with
      | match list_ (chan ?s1 c) with _ => _ end = _ =>
          assert (Ho : ord s1 = ord s)
            by (destruct (taker_ (chan s c) =? 0); reflexivity);
          destruct (list_ (chan s1 c));
          [eapply (yield_consistent fr _ s1 s); eauto
          |injection H as <- <-; eapply consistent_same; [|exact Hc]; exact Ho]
      end.
    + unfold pop_loop in H. destruct (list_ (chan s c)).
      * eapply (yield_consistent fr _ s s); eauto.
      * injection H as <- <-. eapply consistent_same; [|exact Hc]. reflexivity.
    + injection H as <- <-. eapply consistent_same; [|exact Hc]. reflexivity.
    + unfold touch in H.
      match type of H with
      | (if ?b then _ else _) = _ => destruct b
      end.
      * eapply (resume_consistent _ fr (fun _ => body) s s); eauto.
      * injection H as <- <-. exact Hc.
    + injection H as <- <-. exact Hc.
    + injection H as <- <-. exact Hc.
Qed.

Lemma init_consistent (prog : code T) : consistent init (Run Host prog).
Proof.
  split; [reflexivity|]. split.
  - intros h H. discriminate H.
  - intros r x [].
Qed.

End Consistent.

(** X15. [current] tells who is running. Start from a state in which the
    host runs with [current] 0, such as the initial one, and take any run
    that keeps the table within the range of [routine_t]. At its end the
    host frame runs with [current] 0 and a routine's frame with [current]
    different from 0, the saved host context belongs to the host, and the
    contexts saved in routines do not. So a routine that calls [resume],
    directly or through [push] or [touch] on a channel bound to another
    routine, always fails the assertion of [resume]. *)
Theorem current_tells_who_runs {T} (n : nat) (s s' : state T) (c c' : context T) :
  consistent s c ->
  Z.of_nat (table_size s) + Z.of_nat n < UINT_MAX1 ->
  run n s c = Ok (s', c') ->
  consistent s' c' /\
  (forall id0 a id k, c' = Run (Body id0 a) (Resume id k) -> step s' c' = AssertFail) /\
  (forall id0 a ch v k, c' = Run (Body id0 a) (Push ch v k) ->
     taker_ (chan s' ch) <> 0 -> taker_ (chan s' ch) <> current (ord s') ->
     step s' c' = AssertFail) /\
  (forall id0 a ch k, c' = Run (Body id0 a) (Touch ch k) ->
     taker_ (chan s' ch) <> 0 -> taker_ (chan s' ch) <> current (ord s') ->
     step s' c' = AssertFail).
Proof.
  intros Hc Hlen Hrun.
  assert (Hc' : consistent s' c').
  { revert s c Hc Hlen Hrun. induction n as [|n IH]; intros s c Hc Hlen Hrun.
    - now injection Hrun as <- <-.
    - cbn [run] in Hrun.
      destruct (step s c) as [[s1 c1]| |] eqn:Hstep; try discriminate Hrun.
      cbn [obind] in Hrun. pose proof (step_table_size _ _ _ _ Hstep) as Hsz.
      eapply (IH s1 c1); [|lia|exact Hrun].
      eapply step_consistent; eauto. lia. }
  split; [exact Hc'|]. destruct Hc' as [Hf _].
  split; [|split].
  - intros id0 a id k ->. cbn [step]. apply resume_asserts_host. exact Hf.
  - intros id0 a ch v k -> H0 Hne. cbn [step]. rewrite push_resumes by assumption.
    apply resume_asserts_host. exact Hf.
  - intros id0 a ch k -> H0 Hne. cbn [step]. unfold touch.
    destruct (Z.eqb_spec (taker_ (chan s' ch)) 0); [contradiction|].
    destruct (Z.eqb_spec (taker_ (chan s' ch)) (current (ord s'))); [contradiction|].
    cbn [negb andb]. apply resume_asserts_host. exact Hf.
Qed.

Lemma current_tells_who_runs_witness :
  exists s',
    run 7 init (Run Host push_from_routine) =
      Ok (s', Run (Body 1 0%nat) (Push 0%nat 7 Return)) /\
    current (ord s') <> 0 /\
    step s' (Run (Body 1 0%nat) (Push 0%nat 7 Return)) = AssertFail.
Proof.
  eexists. split; [vm_compute; reflexivity|].
  match goal with
  | |- current (ord ?s1) <> 0 /\ _ =>
      destruct (current_tells_who_runs 7 init s1 (Run Host push_from_routine)
                  (Run (Body 1 0%nat) (Push 0%nat 7 Return)))
        as ([Hf _] & _ & Hpush & _);
        [apply init_consistent|vm_compute; reflexivity|vm_compute; reflexivity|]
  end.
  split; [exact Hf|].
  apply (Hpush 1 0%nat 0%nat 7 Return); [reflexivity|vm_compute; discriminate|vm_compute; discriminate].
Defined.
